(** * Sandbox lifecycle client: shallow embedding of the three MCP servers

The repository ships three near-duplicate servers, each registering the
sandbox tools on an [McpServer]:

- [RemoteSandbox]  : src/remote-sandbox.ts (proxy, username addressing);
- [ApiKeyProxy]    : src/unnamed/part_002  (proxy, bearer credential,
                     readiness polling);
- [Kubectl]        : src/unnamed/part_003  (direct cluster CLI).

Every tool handler is an [async] function whose body is one
[try { ... } catch (error) { return failure }].  The handlers are
embedded as computations in a reader/state/error monad [M]: the reader is
the runtime [Env] (file system, network, child processes, clock and the
[JSON] object), the state is the handler's mutable local variables
together with the trace of effects performed so far, and the error is a
thrown JavaScript [Error].

The file has two parts: the embedding (values, runtime, monad, the three
servers, observations on traces, the functions the handlers compute and
the runtimes used in examples), then the properties, one group per
concern: configuration, forwarding handlers, command execution, the
settings push, the readiness poll, creation, response bodies, the
sandbox name and the shell command line.  The further properties that
close the file cover the outward contract of the handlers, their
requests and error answers, the rounds of the poll, unreadable
configurations, the credential, and the tools of the cluster CLI
server. *)

From Stdlib Require Import ZArith List String Ascii Bool Lia DecimalString.
Import ListNotations.
Open Scope string_scope.
Set Warnings "-register-all".

(** ** JavaScript values *)

(** The values a handler manipulates: what [JSON.parse] and
    [response.json()] produce, plus [undefined].  Numbers are restricted to
    integers (ports, exit codes, HTTP statuses, timestamps). *)
Inductive value : Type :=
| VUndefined
| VNull
| VBool (b : bool)
| VNum (n : Z)
| VStr (s : string)
| VArr (xs : list value)
| VObj (fields : list (string * value)).

(** The double-quote and line-feed characters, for the literals that
    contain them. *)
Definition dq : string := String (ascii_of_nat 34) EmptyString.
Definition nl : string := String (ascii_of_nat 10) EmptyString.

(** [ToBoolean]: the falsy values are [undefined], [null], [false], [0] and
    the empty string. *)
Definition truthy (v : value) : bool :=
  match v with
  | VUndefined | VNull => false
  | VBool b => b
  | VNum n => negb (n =? 0)%Z
  | VStr s => negb (s =? "")
  | VArr _ | VObj _ => true
  end.

Definition nullish (v : value) : bool :=
  match v with
  | VUndefined | VNull => true
  | _ => false
  end.

(** [a || b] on already evaluated operands. *)
Definition js_or (a b : value) : value := if truthy a then a else b.

(** [a ?? b]. *)
Definition js_nullish_or (a b : value) : value := if nullish a then b else a.

(** Own-property lookup in an object, whose members are listed in order
    with each key once; an absent key reads as [undefined]. *)
Fixpoint assoc (k : string) (fields : list (string * value)) : value :=
  match fields with
  | [] => VUndefined
  | (k', v) :: rest => if k =? k' then v else assoc k rest
  end.

Definition string_of_Z (n : Z) : string := NilZero.string_of_int (Z.to_int n).

(** Property read [v.k] on a value that is neither [null] nor [undefined].
    Objects answer with their own field; the only inherited property the
    handlers ever read is [length] (of an array or a string). *)
Definition field (k : string) (v : value) : value :=
  match v with
  | VObj fields => assoc k fields
  | VArr xs => if k =? "length" then VNum (Z.of_nat (List.length xs)) else VUndefined
  | VStr s => if k =? "length" then VNum (Z.of_nat (String.length s)) else VUndefined
  | _ => VUndefined
  end.

(** [v?.k]. *)
Definition opt_field (k : string) (v : value) : value :=
  if nullish v then VUndefined else field k v.

(** [String(v)], the conversion a template literal applies to [${v}].  A
    number is printed with all its digits, which is what JavaScript prints
    for the integers a double holds exactly (magnitude up to 2^53): ports,
    exit codes, statuses and timestamps are far inside that range. *)
Fixpoint to_string (v : value) : string :=
  match v with
  | VUndefined => "undefined"
  | VNull => "null"
  | VBool true => "true"
  | VBool false => "false"
  | VNum n => string_of_Z n
  | VStr s => s
  | VArr xs =>
      String.concat ","
        ((fix elems (l : list value) : list string :=
            match l with
            | [] => []
            | x :: l' => (if nullish x then "" else to_string x) :: elems l'
            end) xs)
  | VObj _ => "[object Object]"
  end.

(** [a === 'literal'] against a string literal. *)
Definition strict_eq_str (v : value) (s : string) : bool :=
  match v with
  | VStr s' => s' =? s
  | _ => false
  end.

(** Optional tool arguments ([z.string().optional()], [z.number().optional()]):
    an absent argument is [undefined]. *)
Definition opt_str (o : option string) : value :=
  match o with Some s => VStr s | None => VUndefined end.
Definition opt_num (o : option Z) : value :=
  match o with Some n => VNum n | None => VUndefined end.

(** ** Errors, requests, responses and effects *)

(** A thrown [Error]: its [message], and the [code] Node attaches to file
    system errors (['ENOENT']). *)
Record JsError : Type := mkError { message : string; code : option string }.

Definition Error (msg : string) : JsError := mkError msg None.

(** [error.code === c]. *)
Definition code_is (error : JsError) (c : string) : bool :=
  match code error with
  | Some c' => c' =? c
  | None => false
  end.

Inductive Outcome (A : Type) : Type :=
| Returned (a : A)
| Thrown (e : JsError).
Arguments Returned {A} a.
Arguments Thrown {A} e.

(** The [TypeError] of reading property [k] of [null] or [undefined]. *)
Definition TypeError_read (v : value) (k : string) : JsError :=
  Error ("Cannot read properties of " ++ to_string v ++ " (reading '" ++ k ++ "')").

Record Request : Type := mkRequest {
  method : string;
  url : string;
  headers : list (string * string);
  body : option string
}.

(** A [fetch] response: its HTTP status and what [await response.json()]
    does on it (the parsed body, or the rejection of an unparsable one). *)
Record Response : Type := mkResponse {
  status : Z;
  json : Outcome value
}.

(** [response.ok]: the status is in the range 200-299. *)
Definition ok (r : Response) : bool :=
  ((200 <=? status r) && (status r <=? 299))%Z.

Inductive Event : Type :=
| EReadFile (path : string)
| EWriteFile (path content : string)
| EUnlink (path : string)
| EFetch (req : Request)
| ESleep (ms : Z)
| EExec (cmd : string)
| ENow
| EConsoleError (label : string) (e : JsError).

Definition Trace : Type := list Event.

(** The runtime a handler runs against.  Every effectful primitive answers
    as a function of the effects performed so far, so a backend may change
    its answer from one attempt to the next.  [JSON.parse], [JSON.stringify],
    [String.prototype.trim] and the numeric reading of a non-number by [>]
    are the runtime's own pure functions. *)
Record Env : Type := mkEnv {
  configPath : string;
  readFile : Trace -> string -> Outcome string;
  writeFile : Trace -> string -> string -> Outcome unit;
  unlink : Trace -> string -> Outcome unit;
  fetch : Trace -> Request -> Outcome Response;
  execAsync : Trace -> string -> Outcome string;
  Date_now : Trace -> Z;
  JSON_parse : string -> Outcome value;
  JSON_stringify : value -> string;
  String_trim : string -> string;
  ToNumber_positive : value -> bool
}.

(** ** The handler monad *)

Section Monad.
Context {L : Type}.

Definition M (A : Type) : Type := Env -> L -> Trace -> Outcome A * L * Trace.

Definition ret {A} (a : A) : M A := fun _ l tr => (Returned a, l, tr).

Definition throw {A} (e : JsError) : M A := fun _ l tr => (Thrown e, l, tr).

Definition bind {A B} (m : M A) (k : A -> M B) : M B :=
  fun env l tr =>
    match m env l tr with
    | (Returned a, l', tr') => k a env l' tr'
    | (Thrown e, l', tr') => (Thrown e, l', tr')
    end.

(** [try { m } catch (error) { h error }]: assignments and effects made
    by [m] before it threw are kept. *)
Definition try_catch {A} (m : M A) (h : JsError -> M A) : M A :=
  fun env l tr =>
    match m env l tr with
    | (Returned a, l', tr') => (Returned a, l', tr')
    | (Thrown e, l', tr') => h e env l' tr'
    end.

Definition ask {A} (f : Env -> A) : M A := fun env l tr => (Returned (f env), l, tr).

Definition load {A} (f : L -> A) : M A := fun _ l tr => (Returned (f l), l, tr).

Definition store (f : L -> L) : M unit := fun _ l tr => (Returned tt, f l, tr).

(** An effect: the runtime answers from the trace so far, and the event
    is appended to the trace whatever the answer. *)
Definition perform {A} (ev : Event) (answer : Env -> Trace -> Outcome A) : M A :=
  fun env l tr => (answer env tr, l, (tr ++ [ev])%list).

Definition lift {A} (o : Outcome A) : M A := fun _ l tr => (o, l, tr).
End Monad.
Arguments M : clear implicits.

Declare Scope js_scope.
Delimit Scope js_scope with js.
Notation "x <- m ;; k" := (bind m (fun x => k))
  (at level 100, m at next level, right associativity) : js_scope.
Notation "m ;;; k" := (bind m (fun _ => k))
  (at level 100, right associativity) : js_scope.
Open Scope js_scope.

Section Primitives.
Context {L : Type}.

(** [v.k]: throws on [null] and [undefined]. *)
Definition get (v : value) (k : string) : M L value :=
  if nullish v then throw (TypeError_read v k) else ret (field k v).

(** [a || b] with [b] evaluated only when [a] is falsy. *)
Definition or_else (a : value) (b : M L value) : M L value :=
  if truthy a then ret a else b.

Definition fs_readFile (path : string) : M L string :=
  perform (EReadFile path) (fun env tr => readFile env tr path).

Definition fs_writeFile (path content : string) : M L unit :=
  perform (EWriteFile path content) (fun env tr => writeFile env tr path content).

Definition fs_unlink (path : string) : M L unit :=
  perform (EUnlink path) (fun env tr => unlink env tr path).

Definition do_fetch (req : Request) : M L Response :=
  perform (EFetch req) (fun env tr => fetch env tr req).

(** [await new Promise(resolve => setTimeout(resolve, ms))]. *)
Definition sleep (ms : Z) : M L unit :=
  perform (ESleep ms) (fun _ _ => Returned tt).

Definition exec (cmd : string) : M L string :=
  perform (EExec cmd) (fun env tr => execAsync env tr cmd).

Definition now : M L Z :=
  perform ENow (fun env tr => Returned (Date_now env tr)).

Definition console_error (label : string) (e : JsError) : M L unit :=
  perform (EConsoleError label e) (fun _ _ => Returned tt).

Definition parse (s : string) : M L value :=
  fun env l tr => (JSON_parse env s, l, tr).

Definition stringify (v : value) : M L string := ask (fun env => JSON_stringify env v).

(** [await response.json()]. *)
Definition response_json (r : Response) : M L value := lift (json r).
End Primitives.

(** ** Tool results *)

(** A handler returns [{content: [{type: 'text', text: JSON.stringify(p, null, 2)}]}];
    the embedding keeps the object [p] that is serialised. *)
Definition ToolResult : Type := value.

(** The structured failure shape built by every handler's [catch] block. *)
Definition failure (error : JsError) : ToolResult :=
  VObj [("success", VBool false); ("error", VStr (message error))].

Definition GET (u : string) (hs : list (string * string)) : Request :=
  mkRequest "GET" u hs None.

Definition content_type_json : string * string := ("Content-Type", "application/json").

(** ** src/remote-sandbox.ts: proxy server with username addressing *)

Module RemoteSandbox.
Section Handlers.
Context {L : Type}.

Definition loadConfig : M L value :=
  try_catch
    (configPath <- ask configPath ;;
     content <- fs_readFile configPath ;;
     config <- parse content ;;
     proxyUrl <- get config "proxyUrl" ;;
     if negb (truthy proxyUrl)
     then throw (Error "proxyUrl is required in config.json. Please set it to your proxy URL (e.g., http://34.27.37.121)")
     else ret config)
    (fun error =>
       if code_is error "ENOENT"
       then
         configPath <- ask configPath ;;
         throw (Error ("Config file not found at " ++ configPath
                       ++ ". Please create it with at least a 'proxyUrl' field."))
       else throw error).

(** The shell command of the best-effort settings push. *)
Definition settingsCommand (sandboxPort : value) : string :=
  "mkdir -p ~/.gemini && cat > ~/.gemini/settings.json << 'EOFJSON'" ++ nl
  ++ "{" ++ nl
  ++ "  " ++ dq ++ "mcpServers" ++ dq ++ ": {" ++ nl
  ++ "    " ++ dq ++ "sandbox" ++ dq ++ ": {" ++ nl
  ++ "      " ++ dq ++ "httpUrl" ++ dq ++ ": " ++ dq ++ "http://localhost:"
  ++ to_string sandboxPort ++ "/mcp" ++ dq ++ "," ++ nl
  ++ "      " ++ dq ++ "args" ++ dq ++ ": []" ++ nl
  ++ "    }" ++ nl
  ++ "  }" ++ nl
  ++ "}" ++ nl
  ++ "EOFJSON".

(** [const errorData = await response.json();
     throw new Error(`${prefix}${errorData.error || errorData.message}`)]. *)
Definition throw_backend_error {A} (prefix : string) (response : Response) : M L A :=
  errorData <- response_json response ;;
  e <- get errorData "error" ;;
  detail <- or_else e (get errorData "message") ;;
  throw (Error (prefix ++ to_string detail)).

Definition create_sandbox (name : string) (image : option string) (port : option Z)
  : M L ToolResult :=
  try_catch
    (config <- loadConfig ;;
     sandboxImage <- or_else (opt_str image) (get config "defaultImage") ;;
     sandboxPort <- or_else (opt_num port)
                      (defaultPort <- get config "defaultPort" ;;
                       ret (js_or defaultPort (VNum 8888))) ;;
     cfgUsername <- get config "username" ;;
     let username := js_or cfgUsername (VStr "default") in
     cfgNamespace <- get config "namespace" ;;
     let namespace := js_or cfgNamespace (VStr "default") in
     proxyUrl <- get config "proxyUrl" ;;
     let createUrl := to_string proxyUrl ++ "/api/sandboxes" in
     payload <- stringify (VObj [("name", VStr name); ("username", username);
                                 ("image", sandboxImage); ("port", sandboxPort);
                                 ("namespace", namespace)]) ;;
     createResponse <- do_fetch (mkRequest "POST" createUrl [content_type_json] (Some payload)) ;;
     (if negb (ok createResponse)
      then throw_backend_error "Failed to create sandbox: " createResponse
      else ret tt) ;;;
     createData <- response_json createResponse ;;
     sleep 30000 ;;;
     let statusUrl := to_string proxyUrl ++ "/api/sandboxes/" ++ to_string username
                      ++ "/" ++ name in
     statusResponse <- do_fetch (GET statusUrl []) ;;
     sandboxData <- (if ok statusResponse
                     then response_json statusResponse
                     else ret (VObj [])) ;;
     try_catch
       (let execUrl := to_string proxyUrl ++ "/" ++ to_string username ++ "/" ++ name
                       ++ "/v1/shell/exec" in
        command <- stringify (VObj [("command", VStr (settingsCommand sandboxPort))]) ;;
        do_fetch (mkRequest "POST" execUrl [content_type_json] (Some command)) ;;;
        ret tt)
       (fun e => ret tt) ;;;
     sdName <- get sandboxData "name" ;;
     sdNamespace <- get sandboxData "namespace" ;;
     sdFQDN <- get sandboxData "serviceFQDN" ;;
     sdReady <- get sandboxData "ready" ;;
     ret (VObj [("success", VBool true);
                ("message", VStr ("Sandbox '" ++ name ++ "' created successfully"));
                ("sandbox", VObj [("name", js_or sdName (VStr name));
                                  ("namespace", js_or sdNamespace namespace);
                                  ("serviceFQDN", js_or sdFQDN (VStr "pending"));
                                  ("ready", js_or sdReady (VBool false))])]))
    (fun error => ret (failure error)).

(** The body shared by [get_sandbox_status], [delete_sandbox],
    [pause_sandbox] and [resume_sandbox]: one request, the 404 test, the
    backend error, and the backend's answer returned unchanged.  The four
    handlers differ in the request and in the error prefix only. *)
Definition forward (name : string) (request : value -> M L Request) (prefix : string)
  : M L ToolResult :=
  try_catch
    (config <- loadConfig ;;
     req <- request config ;;
     response <- do_fetch req ;;
     (if negb (ok response)
      then
        (if (status response =? 404)%Z
         then throw (Error ("Sandbox '" ++ name ++ "' not found"))
         else ret tt) ;;;
        throw_backend_error prefix response
      else ret tt) ;;;
     response_json response)
    (fun error => ret (failure error)).

Definition get_sandbox_status (name : string) : M L ToolResult :=
  forward name
    (fun config =>
       cfgUsername <- get config "username" ;;
       let username := js_or cfgUsername (VStr "default") in
       proxyUrl <- get config "proxyUrl" ;;
       ret (GET (to_string proxyUrl ++ "/api/sandboxes/" ++ to_string username
                 ++ "/" ++ name) []))
    "Failed to get sandbox status: ".

(** [`${config.proxyUrl}/api/sandboxes/${username}/${name}${action}?namespace=${namespace}`]
    sent with [method] and no headers. *)
Definition namespaced_request (method name action : string) (config : value)
  : M L Request :=
  cfgUsername <- get config "username" ;;
  let username := js_or cfgUsername (VStr "default") in
  cfgNamespace <- get config "namespace" ;;
  let namespace := js_or cfgNamespace (VStr "default") in
  proxyUrl <- get config "proxyUrl" ;;
  ret (mkRequest method
         (to_string proxyUrl ++ "/api/sandboxes/" ++ to_string username ++ "/" ++ name
          ++ action ++ "?namespace=" ++ to_string namespace)
         [] None).

Definition delete_sandbox (name : string) : M L ToolResult :=
  forward name (namespaced_request "DELETE" name "") "Failed to delete sandbox: ".

Definition pause_sandbox (name : string) : M L ToolResult :=
  forward name (namespaced_request "POST" name "/pause") "Failed to pause sandbox: ".

Definition resume_sandbox (name : string) : M L ToolResult :=
  forward name (namespaced_request "POST" name "/resume") "Failed to resume sandbox: ".

(** The part of [send_prompt_to_sandbox] after the response arrived; it is
    the same in the three servers. *)
Definition exec_result (name command : string) (response : Response) : M L ToolResult :=
  (if negb (ok response)
   then
     errorData <- response_json response ;;
     detail <- stringify errorData ;;
     throw (Error ("Proxy returned " ++ string_of_Z (status response) ++ ": " ++ detail))
   else ret tt) ;;;
  data <- response_json response ;;
  inner <- get data "data" ;;
  let output := js_or (opt_field "output" inner) (VStr "") in
  let exitCode := js_nullish_or (opt_field "exit_code" inner) (VNum (-1)) in
  success <- get data "success" ;;
  ret (VObj [("success", success);
             ("sandbox", VStr name);
             ("command", VStr command);
             ("result", VObj [("output", output);
                              ("exit_code", exitCode);
                              ("session_id", opt_field "session_id" inner)])]).

Definition send_prompt_to_sandbox (name command : string) : M L ToolResult :=
  try_catch
    (config <- loadConfig ;;
     proxyUrl <- get config "proxyUrl" ;;
     (if negb (truthy proxyUrl)
      then throw (Error "proxyUrl not configured. Please set proxyUrl in config.json")
      else ret tt) ;;;
     cfgUsername <- get config "username" ;;
     let username := js_or cfgUsername (VStr "default") in
     let url := to_string proxyUrl ++ "/" ++ to_string username ++ "/" ++ name
                ++ "/v1/shell/exec" in
     payload <- stringify (VObj [("command", VStr command)]) ;;
     response <- do_fetch (mkRequest "POST" url [content_type_json] (Some payload)) ;;
     exec_result name command response)
    (fun error => ret (failure error)).

Definition list_sandboxes : M L ToolResult :=
  try_catch
    (config <- loadConfig ;;
     proxyUrl <- get config "proxyUrl" ;;
     response <- do_fetch (GET (to_string proxyUrl ++ "/api/sandboxes") []) ;;
     (if negb (ok response)
      then throw_backend_error "Failed to list sandboxes: " response
      else ret tt) ;;;
     response_json response)
    (fun error => ret (failure error)).
End Handlers.
End RemoteSandbox.

(** ** src/unnamed/part_002: proxy server with a bearer credential *)

Module ApiKeyProxy.

(** The mutable locals of [create_sandbox]: [let sandboxData: any = {}]
    and [let ready = false]. *)
Record PollVars : Type := mkPollVars { sandboxData : value; ready : bool }.

Definition maxAttempts : nat := 12.
Definition pollDelay : Z := 5000.

Section Handlers.
Context {L : Type}.

Definition loadConfig : M L value :=
  try_catch
    (configPath <- ask configPath ;;
     content <- fs_readFile configPath ;;
     config <- parse content ;;
     proxyUrl <- get config "proxyUrl" ;;
     (if negb (truthy proxyUrl)
      then throw (Error "proxyUrl is required in config.json. Please set it to your proxy URL (e.g., http://34.27.37.121)")
      else ret tt) ;;;
     apiKey <- get config "apiKey" ;;
     (if negb (truthy apiKey)
      then throw (Error "apiKey is required in config.json. Generate one via the admin API: POST /api/admin/users/<userId>/apikeys")
      else ret tt) ;;;
     ret config)
    (fun error =>
       if code_is error "ENOENT"
       then
         configPath <- ask configPath ;;
         throw (Error ("Config file not found at " ++ configPath
                       ++ ". Please create it with at least a 'proxyUrl' field."))
       else throw error).

(** [{'Authorization': `Bearer ${config.apiKey}`}]. *)
Definition authorization (config : value) : M L (string * string) :=
  apiKey <- get config "apiKey" ;;
  ret ("Authorization", "Bearer " ++ to_string apiKey).

Definition throw_backend_error {A} (prefix : string) (response : Response) : M L A :=
  errorData <- response_json response ;;
  e <- get errorData "error" ;;
  detail <- or_else e (get errorData "message") ;;
  throw (Error (prefix ++ to_string detail)).

(** The [catch] block of every handler: log, then the failure shape. *)
Definition report (label : string) (error : JsError) : M L ToolResult :=
  console_error label error ;;;
  ret (failure error).

Definition forward (name : string) (request : value -> M L Request)
           (prefix label : string) : M L ToolResult :=
  try_catch
    (config <- loadConfig ;;
     req <- request config ;;
     response <- do_fetch req ;;
     (if negb (ok response)
      then
        (if (status response =? 404)%Z
         then throw (Error ("Sandbox '" ++ name ++ "' not found"))
         else ret tt) ;;;
        throw_backend_error prefix response
      else ret tt) ;;;
     response_json response)
    (report label).

(** [`${config.proxyUrl}/api/sandboxes/${name}${action}`] sent with
    [method] and the bearer credential. *)
Definition sandbox_request (method name action : string) (config : value)
  : M L Request :=
  proxyUrl <- get config "proxyUrl" ;;
  auth <- authorization config ;;
  ret (mkRequest method (to_string proxyUrl ++ "/api/sandboxes/" ++ name ++ action)
         [auth] None).

Definition get_sandbox_status (name : string) : M L ToolResult :=
  forward name (sandbox_request "GET" name "")
    "Failed to get sandbox status: "
    ("Error getting sandbox status for '" ++ name ++ "':").

Definition delete_sandbox (name : string) : M L ToolResult :=
  forward name (sandbox_request "DELETE" name "")
    "Failed to delete sandbox: "
    ("Error deleting sandbox '" ++ name ++ "':").

Definition pause_sandbox (name : string) : M L ToolResult :=
  forward name (sandbox_request "POST" name "/pause")
    "Failed to pause sandbox: "
    ("Error pausing sandbox '" ++ name ++ "':").

Definition resume_sandbox (name : string) : M L ToolResult :=
  forward name (sandbox_request "POST" name "/resume")
    "Failed to resume sandbox: "
    ("Error resuming sandbox '" ++ name ++ "':").

Definition send_prompt_to_sandbox (name command : string) : M L ToolResult :=
  try_catch
    (config <- loadConfig ;;
     proxyUrl <- get config "proxyUrl" ;;
     (if negb (truthy proxyUrl)
      then throw (Error "proxyUrl not configured. Please set proxyUrl in config.json")
      else ret tt) ;;;
     let url := to_string proxyUrl ++ "/proxy/" ++ name ++ "/v1/shell/exec" in
     auth <- authorization config ;;
     payload <- stringify (VObj [("command", VStr command)]) ;;
     response <- do_fetch (mkRequest "POST" url [content_type_json; auth] (Some payload)) ;;
     RemoteSandbox.exec_result name command response)
    (report ("Error sending prompt to sandbox '" ++ name ++ "':")).

Definition list_sandboxes : M L ToolResult :=
  try_catch
    (config <- loadConfig ;;
     proxyUrl <- get config "proxyUrl" ;;
     auth <- authorization config ;;
     response <- do_fetch (GET (to_string proxyUrl ++ "/api/sandboxes") [auth]) ;;
     (if negb (ok response)
      then throw_backend_error "Failed to list sandboxes: " response
      else ret tt) ;;;
     response_json response)
    (report "Error listing sandboxes:").
End Handlers.

(** One iteration of the polling loop after its delay: the [try] block.
    It answers whether the loop [break]s. *)
Definition attempt (statusUrl : string) (config : value) : M PollVars bool :=
  try_catch
    (auth <- authorization config ;;
     statusResponse <- do_fetch (GET statusUrl [auth]) ;;
     if ok statusResponse
     then
       data <- response_json statusResponse ;;
       store (fun vars => mkPollVars data (ready vars)) ;;;
       current <- load sandboxData ;;
       isReady <- get current "ready" ;;
       if truthy isReady
       then store (fun vars => mkPollVars (sandboxData vars) true) ;;; ret true
       else ret false
     else ret false)
    (fun e => ret false).

(** [for (let attempt = 0; attempt < maxAttempts; attempt++)], by the
    number of iterations that remain. *)
Fixpoint poll (remaining : nat) (statusUrl : string) (config : value)
  : M PollVars unit :=
  match remaining with
  | O => ret tt
  | S rest =>
      sleep pollDelay ;;;
      stop <- attempt statusUrl config ;;
      if (stop : bool) then ret tt else poll rest statusUrl config
  end.

Definition create_sandbox (name : string) (image : option string) (port : option Z)
  : M PollVars ToolResult :=
  try_catch
    (config <- loadConfig ;;
     sandboxImage <- or_else (opt_str image) (get config "defaultImage") ;;
     sandboxPort <- or_else (opt_num port)
                      (defaultPort <- get config "defaultPort" ;;
                       ret (js_or defaultPort (VNum 8888))) ;;
     proxyUrl <- get config "proxyUrl" ;;
     let createUrl := to_string proxyUrl ++ "/api/sandboxes" in
     auth <- authorization config ;;
     payload <- stringify (VObj [("name", VStr name); ("image", sandboxImage);
                                 ("port", sandboxPort)]) ;;
     createResponse <- do_fetch (mkRequest "POST" createUrl [content_type_json; auth]
                                   (Some payload)) ;;
     (if negb (ok createResponse)
      then throw_backend_error "Failed to create sandbox: " createResponse
      else ret tt) ;;;
     createData <- response_json createResponse ;;
     let statusUrl := to_string proxyUrl ++ "/api/sandboxes/" ++ name in
     store (fun _ => mkPollVars (VObj []) false) ;;;
     poll maxAttempts statusUrl config ;;;
     current <- load sandboxData ;;
     sdName <- get current "name" ;;
     sdNamespace <- get current "namespace" ;;
     sdFQDN <- get current "serviceFQDN" ;;
     sdReady <- get current "ready" ;;
     ret (VObj [("success", VBool true);
                ("message", VStr ("Sandbox '" ++ name ++ "' created successfully"));
                ("sandbox", VObj [("name", js_or sdName (VStr name));
                                  ("namespace", js_or sdNamespace (VStr "pending"));
                                  ("serviceFQDN", js_or sdFQDN (VStr "pending"));
                                  ("ready", js_or sdReady (VBool false))])]))
    (report ("Error creating sandbox '" ++ name ++ "':")).
End ApiKeyProxy.

(** ** src/unnamed/part_003: direct cluster CLI server *)

Module Kubectl.

(** The mutable locals of [get_sandbox_status]: [let podStatus = 'unknown']
    and [let podName = 'unknown']. *)
Record PodVars : Type := mkPodVars { podStatus : value; podName : value }.

(** What [loadConfig] returns when the file cannot be read or parsed. *)
Definition defaultConfig : value :=
  VObj [("username", VStr "default"); ("namespace", VStr "default");
        ("defaultImage", VStr "sandbox-runtime:latest"); ("defaultPort", VNum 8888)].

(** The command line [kubectl] hands to the shell:
    [`kubectl ${kubeconfigFlag} ${namespaceFlag} ${args.join(' ')}`]. *)
Definition kubectl_cmd (args : list string) (config : value) : string :=
  let kubeconfigFlag :=
    if truthy (opt_field "kubeconfig" config)
    then "--kubeconfig=" ++ to_string (opt_field "kubeconfig" config) else "" in
  let namespaceFlag :=
    if truthy (opt_field "namespace" config)
    then "-n " ++ to_string (opt_field "namespace" config) else "" in
  "kubectl " ++ kubeconfigFlag ++ " " ++ namespaceFlag ++ " " ++ String.concat " " args.

Definition generateSandboxYAML (name image port username : string) : string :=
  "apiVersion: agents.x-k8s.io/v1alpha1" ++ nl
  ++ "kind: Sandbox" ++ nl
  ++ "metadata:" ++ nl
  ++ "  name: " ++ name ++ nl
  ++ "  labels:" ++ nl
  ++ "    user: " ++ username ++ nl
  ++ "spec:" ++ nl
  ++ "  podTemplate:" ++ nl
  ++ "    metadata:" ++ nl
  ++ "      labels:" ++ nl
  ++ "        sandbox: " ++ name ++ nl
  ++ "        managed-by: gemini-cli" ++ nl
  ++ "    spec:" ++ nl
  ++ "      containers:" ++ nl
  ++ "      - name: sandbox-runtime" ++ nl
  ++ "        image: " ++ image ++ nl
  ++ "        imagePullPolicy: IfNotPresent" ++ nl
  ++ "        ports:" ++ nl
  ++ "        - containerPort: " ++ port ++ nl
  ++ "        env:" ++ nl
  ++ "        - name: GOOGLE_GENAI_USE_VERTEXAI" ++ nl
  ++ "          value: " ++ dq ++ "true" ++ dq ++ nl
  ++ "        - name: GOOGLE_CLOUD_PROJECT" ++ nl
  ++ "          value: " ++ dq ++ "agent-sandbox-476202" ++ dq ++ nl
  ++ "        - name: GOOGLE_CLOUD_LOCATION" ++ nl
  ++ "          value: " ++ dq ++ "global" ++ dq ++ nl.

(** [pods.items[0]]. *)
Definition first_item (items : value) : value :=
  match items with
  | VArr (x :: _) => x
  | VStr (String c _) => VStr (String c EmptyString)
  | VObj fields => assoc "0" fields
  | _ => VUndefined
  end.

Section Handlers.
Context {L : Type}.

Definition loadConfig : M L value :=
  try_catch
    (configPath <- ask configPath ;;
     content <- fs_readFile configPath ;;
     parse content)
    (fun error => ret defaultConfig).

Definition kubectl (args : list string) (config : value) : M L string :=
  let cmd := kubectl_cmd args config in
  try_catch
    (stdout <- exec cmd ;;
     ask (fun env => String_trim env stdout))
    (fun error =>
       throw (Error ("kubectl command failed: " ++ message error ++ nl
                     ++ "Command: " ++ cmd))).

(** [conditions.find((c: any) => c.type === 'Ready')] on an array. *)
Fixpoint find_Ready (conditions : list value) : M L value :=
  match conditions with
  | [] => ret VUndefined
  | c :: rest =>
      type <- get c "type" ;;
      if strict_eq_str type "Ready" then ret c else find_Ready rest
  end.

(** [owner.status?.conditions?.find((c: any) => c.type === 'Ready')],
    where [expr] is the source text of the callee, which the engine
    quotes when [find] is not a function. *)
Definition ready_condition (expr : string) (owner : value) : M L value :=
  st <- get owner "status" ;;
  let conditions := opt_field "conditions" st in
  if nullish conditions then ret VUndefined
  else
    match conditions with
    | VArr xs => find_Ready xs
    | _ => throw (Error (expr ++ " is not a function"))
    end.

(** [x > 0]. *)
Definition positive (x : value) : M L bool :=
  match x with
  | VNum n => ret (0 <? n)%Z
  | VBool b => ret b
  | VUndefined | VNull => ret false
  | _ => ask (fun env => ToNumber_positive env x)
  end.

Definition create_sandbox (name : string) (image : option string) (port : option Z)
  : M L ToolResult :=
  try_catch
    (config <- loadConfig ;;
     sandboxImage <- or_else (opt_str image)
                       (defaultImage <- get config "defaultImage" ;;
                        ret (js_or defaultImage (VStr "sandbox-runtime:latest"))) ;;
     sandboxPort <- or_else (opt_num port)
                      (defaultPort <- get config "defaultPort" ;;
                       ret (js_or defaultPort (VNum 8888))) ;;
     cfgUsername <- get config "username" ;;
     let username := js_or cfgUsername (VStr "default") in
     let yaml := generateSandboxYAML name (to_string sandboxImage)
                   (to_string sandboxPort) (to_string username) in
     stamp <- now ;;
     let tmpFile := "/tmp/sandbox-" ++ name ++ "-" ++ string_of_Z stamp ++ ".yaml" in
     fs_writeFile tmpFile yaml ;;;
     kubectl ["apply"; "-f"; tmpFile] config ;;;
     fs_unlink tmpFile ;;;
     sleep 30000 ;;;
     status <- kubectl ["get"; "sandbox"; name; "-o"; "json"] config ;;
     sandboxData <- parse status ;;
     proxyUrl <- get config "proxyUrl" ;;
     (if truthy proxyUrl
      then
        try_catch
          (let url := to_string proxyUrl ++ "/" ++ to_string username ++ "/" ++ name
                      ++ "/v1/shell/exec" in
           command <- stringify
                        (VObj [("command",
                                VStr (RemoteSandbox.settingsCommand sandboxPort))]) ;;
           do_fetch (mkRequest "POST" url [content_type_json] (Some command)) ;;;
           ret tt)
          (fun e => ret tt)
      else ret tt) ;;;
     metadata <- get sandboxData "metadata" ;;
     sdName <- get metadata "name" ;;
     sdNamespace <- get metadata "namespace" ;;
     st <- get sandboxData "status" ;;
     let sdFQDN := opt_field "serviceFQDN" st in
     condition <- ready_condition "sandboxData.status?.conditions?.find" sandboxData ;;
     ret (VObj [("success", VBool true);
                ("message", VStr ("Sandbox '" ++ name ++ "' created successfully"));
                ("sandbox", VObj [("name", sdName);
                                  ("namespace", sdNamespace);
                                  ("serviceFQDN", js_or sdFQDN (VStr "pending"));
                                  ("ready", VBool (strict_eq_str
                                                     (opt_field "status" condition)
                                                     "True"))])]))
    (fun error => ret (failure error)).

Definition send_prompt_to_sandbox (name command : string) : M L ToolResult :=
  try_catch
    (config <- loadConfig ;;
     proxyUrl <- get config "proxyUrl" ;;
     (if negb (truthy proxyUrl)
      then throw (Error "proxyUrl not configured. Please set proxyUrl in config.json")
      else ret tt) ;;;
     cfgUsername <- get config "username" ;;
     let username := js_or cfgUsername (VStr "default") in
     let url := to_string proxyUrl ++ "/" ++ to_string username ++ "/" ++ name
                ++ "/v1/shell/exec" in
     payload <- stringify (VObj [("command", VStr command)]) ;;
     response <- do_fetch (mkRequest "POST" url [content_type_json] (Some payload)) ;;
     RemoteSandbox.exec_result name command response)
    (fun error => ret (failure error)).

(** The callback of [sandboxList.items.map]. *)
Definition summary (sb : value) : M L value :=
  metadata <- get sb "metadata" ;;
  sbName <- get metadata "name" ;;
  sbNamespace <- get metadata "namespace" ;;
  st <- get sb "status" ;;
  let sbFQDN := opt_field "serviceFQDN" st in
  condition <- ready_condition "sb.status?.conditions?.find" sb ;;
  createdAt <- get metadata "creationTimestamp" ;;
  ret (VObj [("name", sbName);
             ("namespace", sbNamespace);
             ("serviceFQDN", js_or sbFQDN (VStr "pending"));
             ("ready", VBool (strict_eq_str (opt_field "status" condition) "True"));
             ("createdAt", createdAt)]).

Fixpoint map_summary (items : list value) : M L (list value) :=
  match items with
  | [] => ret []
  | sb :: rest =>
      s <- summary sb ;;
      ss <- map_summary rest ;;
      ret (s :: ss)
  end.

Definition list_sandboxes : M L ToolResult :=
  try_catch
    (config <- loadConfig ;;
     output <- kubectl ["get"; "sandboxes"; "-o"; "json"] config ;;
     sandboxList <- parse output ;;
     items <- get sandboxList "items" ;;
     sandboxes <- match items with
                  | VArr xs => map_summary xs
                  | VUndefined | VNull => throw (TypeError_read items "map")
                  | _ => throw (Error "sandboxList.items.map is not a function")
                  end ;;
     ret (VObj [("count", VNum (Z.of_nat (List.length sandboxes)));
                ("sandboxes", VArr sandboxes)]))
    (fun error => ret (failure error)).

Definition delete_sandbox (name : string) : M L ToolResult :=
  try_catch
    (config <- loadConfig ;;
     kubectl ["delete"; "sandbox"; name] config ;;;
     ret (VObj [("success", VBool true);
                ("message", VStr ("Sandbox '" ++ name ++ "' deleted successfully"))]))
    (fun error => ret (failure error)).
End Handlers.

Definition get_sandbox_status (name : string) : M PodVars ToolResult :=
  try_catch
    (config <- loadConfig ;;
     output <- kubectl ["get"; "sandbox"; name; "-o"; "json"] config ;;
     sandbox <- parse output ;;
     st <- get sandbox "status" ;;
     let podSelector := js_or (opt_field "selector" st) (VStr ("sandbox=" ++ name)) in
     store (fun _ => mkPodVars (VStr "unknown") (VStr "unknown")) ;;;
     try_catch
       (podOutput <- kubectl ["get"; "pods"; "-l"; to_string podSelector; "-o"; "json"]
                       config ;;
        pods <- parse podOutput ;;
        items <- get pods "items" ;;
        nonEmpty <- (if truthy items
                     then len <- get items "length" ;; positive len
                     else ret false) ;;
        if (nonEmpty : bool)
        then
          let pod := first_item items in
          podMetadata <- get pod "metadata" ;;
          name' <- get podMetadata "name" ;;
          store (fun vars => mkPodVars (podStatus vars) name') ;;;
          podSt <- get pod "status" ;;
          phase <- get podSt "phase" ;;
          store (fun vars => mkPodVars phase (podName vars))
        else ret tt)
       (fun e => ret tt) ;;;
     condition <- ready_condition "sandbox.status?.conditions?.find" sandbox ;;
     metadata <- get sandbox "metadata" ;;
     sbName <- get metadata "name" ;;
     sbNamespace <- get metadata "namespace" ;;
     createdAt <- get metadata "creationTimestamp" ;;
     currentPodName <- load podName ;;
     currentPodStatus <- load podStatus ;;
     ret (VObj [("name", sbName);
                ("namespace", sbNamespace);
                ("serviceFQDN", js_or (opt_field "serviceFQDN" st) (VStr "pending"));
                ("service", js_or (opt_field "service" st) (VStr "pending"));
                ("replicas", js_or (opt_field "replicas" st) (VNum 0));
                ("ready", VBool (strict_eq_str (opt_field "status" condition) "True"));
                ("readyReason", opt_field "reason" condition);
                ("readyMessage", opt_field "message" condition);
                ("podName", currentPodName);
                ("podStatus", currentPodStatus);
                ("createdAt", createdAt)]))
    (fun error => ret (failure error)).
End Kubectl.

(** ** Tool registration and invocation *)

(** A tool call: the registered tool and its validated arguments. *)
Inductive Call : Type :=
| CreateSandbox (name : string) (image : option string) (port : option Z)
| GetSandboxStatus (name : string)
| SendPrompt (name command : string)
| ListSandboxes
| DeleteSandbox (name : string)
| PauseSandbox (name : string)
| ResumeSandbox (name : string).

(** [server.registerTool] of src/remote-sandbox.ts. *)
Definition RemoteSandbox_tool (c : Call) : M unit ToolResult :=
  match c with
  | CreateSandbox name image port => RemoteSandbox.create_sandbox name image port
  | GetSandboxStatus name => RemoteSandbox.get_sandbox_status name
  | SendPrompt name command => RemoteSandbox.send_prompt_to_sandbox name command
  | ListSandboxes => RemoteSandbox.list_sandboxes
  | DeleteSandbox name => RemoteSandbox.delete_sandbox name
  | PauseSandbox name => RemoteSandbox.pause_sandbox name
  | ResumeSandbox name => RemoteSandbox.resume_sandbox name
  end.

(** [server.registerTool] of src/unnamed/part_002. *)
Definition ApiKeyProxy_tool (c : Call) : M ApiKeyProxy.PollVars ToolResult :=
  match c with
  | CreateSandbox name image port => ApiKeyProxy.create_sandbox name image port
  | GetSandboxStatus name => ApiKeyProxy.get_sandbox_status name
  | SendPrompt name command => ApiKeyProxy.send_prompt_to_sandbox name command
  | ListSandboxes => ApiKeyProxy.list_sandboxes
  | DeleteSandbox name => ApiKeyProxy.delete_sandbox name
  | PauseSandbox name => ApiKeyProxy.pause_sandbox name
  | ResumeSandbox name => ApiKeyProxy.resume_sandbox name
  end.

(** [server.registerTool] of src/unnamed/part_003, which registers neither
    a pause nor a resume tool. *)
Definition Kubectl_tool (c : Call) : option (M Kubectl.PodVars ToolResult) :=
  match c with
  | CreateSandbox name image port => Some (Kubectl.create_sandbox name image port)
  | GetSandboxStatus name => Some (Kubectl.get_sandbox_status name)
  | SendPrompt name command => Some (Kubectl.send_prompt_to_sandbox name command)
  | ListSandboxes => Some Kubectl.list_sandboxes
  | DeleteSandbox name => Some (Kubectl.delete_sandbox name)
  | PauseSandbox _ | ResumeSandbox _ => None
  end.

(** The locals before their declarations ran. *)
Definition noPollVars : ApiKeyProxy.PollVars := ApiKeyProxy.mkPollVars VUndefined false.
Definition noPodVars : Kubectl.PodVars := Kubectl.mkPodVars VUndefined VUndefined.

(** One invocation of a handler on a fresh trace: what it resolves to and
    the effects it performed. *)
Definition run {L A} (m : M L A) (env : Env) (l0 : L) : Outcome A * Trace :=
  let '(o, _, tr) := m env l0 [] in (o, tr).

(** ** Observations on traces *)

(** Total time spent in [setTimeout] delays, in milliseconds. *)
Fixpoint slept (tr : Trace) : Z :=
  match tr with
  | [] => 0
  | ESleep ms :: rest => ms + slept rest
  | _ :: rest => slept rest
  end.

(** The requests sent, in order. *)
Fixpoint requests (tr : Trace) : list Request :=
  match tr with
  | [] => []
  | EFetch req :: rest => req :: requests rest
  | _ :: rest => requests rest
  end.

(** The shell commands executed, in order. *)
Fixpoint commands (tr : Trace) : list string :=
  match tr with
  | [] => []
  | EExec cmd :: rest => cmd :: commands rest
  | _ :: rest => commands rest
  end.

(** [k] polling rounds: a delay, then a status request. *)
Fixpoint rounds (k : nat) (delay : Z) (statusRequest : Request) : Trace :=
  match k with
  | O => []
  | S k' => ESleep delay :: EFetch statusRequest :: rounds k' delay statusRequest
  end.

(** [s.includes(sub)]. *)
Definition includes (sub s : string) : bool :=
  match String.index 0 sub s with Some _ => true | None => false end.

(** A configuration field is missing when [!config.field] holds. *)
Definition missing (k : string) (config : value) : Prop :=
  truthy (opt_field k config) = false.

(** ** A test double of the runtime *)

Module Double.
(** Compact JSON text of a value, without string escapes; object members
    that are [undefined] are left out, as [JSON.stringify] does. *)
Fixpoint render (v : value) : string :=
    match v with
    | VUndefined | VNull => "null"
    | VBool true => "true"
    | VBool false => "false"
    | VNum n => string_of_Z n
    | VStr s => dq ++ s ++ dq
    | VArr xs =>
        "[" ++ String.concat ","
                 ((fix elems (l : list value) : list string :=
                     match l with
                     | [] => []
                     | x :: l' => render x :: elems l'
                     end) xs) ++ "]"
    | VObj fields =>
        "{" ++ String.concat ","
                 ((fix members (l : list (string * value)) : list string :=
                     match l with
                     | [] => []
                     | (_, VUndefined) :: l' => members l'
                     | (k, x) :: l' => (dq ++ k ++ dq ++ ":" ++ render x) :: members l'
                     end) fields) ++ "}"
    end.

(** A parser that knows the documents listed in [table] only. *)
Fixpoint parse_from (table : list (string * value)) (s : string) : Outcome value :=
  match table with
  | [] => Thrown (Error "Unexpected end of JSON input")
  | (text, v) :: rest => if s =? text then Returned v else parse_from rest s
  end.

Definition path : string := "/home/user/.config/gemini-remote-sandbox/config.json".

(** A runtime whose configuration file holds [file], whose parser knows
    [table], whose network answers with [net] and whose shell answers with
    [sh]. *)
Definition runtime (file : Outcome string) (table : list (string * value))
           (net : Trace -> Request -> Outcome Response)
           (sh : Trace -> string -> Outcome string) : Env :=
  mkEnv path (fun _ _ => file) (fun _ _ _ => Returned tt) (fun _ _ => Returned tt)
        net sh (fun _ => 1700000000000%Z) (parse_from table) render
        (fun s => s) (fun _ => false).

Definition proxyConfig : value :=
  VObj [("proxyUrl", VStr "http://proxy"); ("apiKey", VStr "sk_live_1")].

Definition configured : list (string * value) := [("config", proxyConfig)].

Definition no_shell : Trace -> string -> Outcome string :=
  fun _ _ => Thrown (Error "spawn kubectl ENOENT").

Definition respond (st : Z) (v : value) : Outcome Response :=
  Returned (mkResponse st (Returned v)).
End Double.

(** ** What the handlers compute, as functions of the runtime's answers *)

(** The [setTimeout] delays of a trace, in order. *)
Fixpoint delays (tr : Trace) : list Z :=
  match tr with
  | [] => []
  | ESleep ms :: rest => ms :: delays rest
  | _ :: rest => delays rest
  end.





(** A handler's [catch] block applied to an outcome. *)
Definition caught (o : Outcome ToolResult) : ToolResult :=
  match o with
  | Returned result => result
  | Thrown e => failure e
  end.

(** The runtime [env] with the answer to the request made after [n]
    effects replaced by [o]. *)
Definition push_outcome (n : nat) (o : Outcome Response) (env : Env) : Env :=
  mkEnv (configPath env) (readFile env) (writeFile env) (unlink env)
        (fun tr req => if (List.length tr =? n)%nat then o else fetch env tr req)
        (execAsync env) (Date_now env) (JSON_parse env) (JSON_stringify env)
        (String_trim env) (ToNumber_positive env).

(** [find_Ready] and [ready_condition] neither perform effects nor consult
    the runtime: their outcome is a function of the value alone. *)
Fixpoint found_Ready (conditions : list value) : Outcome value :=
  match conditions with
  | [] => Returned VUndefined
  | c :: rest =>
      if nullish c then Thrown (TypeError_read c "type")
      else if strict_eq_str (field "type" c) "Ready" then Returned c
           else found_Ready rest
  end.

Definition found_condition (expr : string) (owner : value) : Outcome value :=
  if nullish owner then Thrown (TypeError_read owner "status")
  else
    let conditions := opt_field "conditions" (field "status" owner) in
    if nullish conditions then Returned VUndefined
    else match conditions with
         | VArr xs => found_Ready xs
         | _ => Thrown (Error (expr ++ " is not a function"))
         end.

(** The readiness poll of the bearer-credential server. *)
Module Poll.
Import ApiKeyProxy.

Definition statusRequest (config : value) (statusUrl : string) : Request :=
  GET statusUrl [("Authorization", "Bearer " ++ to_string (field "apiKey" config))].

(** What one attempt makes of the answer to its status request: whether
    the loop breaks, and the locals afterwards. *)
Definition observed (answer : Outcome Response) (vars : PollVars) : bool * PollVars :=
  match answer with
  | Thrown _ => (false, vars)
  | Returned response =>
      if ok response
      then match json response with
           | Thrown _ => (false, vars)
           | Returned data =>
               if nullish data then (false, mkPollVars data (ready vars))
               else if truthy (field "ready" data)
                    then (true, mkPollVars data true)
                    else (false, mkPollVars data (ready vars))
           end
      else (false, vars)
  end.

(** The snapshot in [sandboxData] reports ready. *)
Definition snapshot_ready (vars : PollVars) : Prop :=
  nullish (sandboxData vars) = false
  /\ truthy (field "ready" (sandboxData vars)) = true.

(** The snapshot in [sandboxData] is [null] or does not report ready. *)
Definition snapshot_pending (vars : PollVars) : Prop :=
  nullish (sandboxData vars) = false ->
  truthy (field "ready" (sandboxData vars)) = false.
End Poll.

(** The success payload of [create_sandbox] in the two proxy servers, from
    the snapshot [sandboxData]; [namespace] is what stands in for a snapshot
    without a namespace. *)
Definition created (name : string) (namespace sandboxData : value) : ToolResult :=
  VObj [("success", VBool true);
        ("message", VStr ("Sandbox '" ++ name ++ "' created successfully"));
        ("sandbox", VObj [("name", js_or (field "name" sandboxData) (VStr name));
                          ("namespace", js_or (field "namespace" sandboxData) namespace);
                          ("serviceFQDN", js_or (field "serviceFQDN" sandboxData)
                                                (VStr "pending"));
                          ("ready", js_or (field "ready" sandboxData) (VBool false))])].

(** [image || config.defaultImage] and [port || config.defaultPort || 8888]. *)
Definition sandboxImage (config : value) (image : option string) : value :=
  if truthy (opt_str image) then opt_str image else field "defaultImage" config.
Definition sandboxPort (config : value) (port : option Z) : value :=
  if truthy (opt_num port) then opt_num port
  else js_or (field "defaultPort" config) (VNum 8888).

Module PolledCreate.

(** The requests of [ApiKeyProxy.create_sandbox]. *)
Definition bearer (config : value) : string * string :=
  ("Authorization", "Bearer " ++ to_string (field "apiKey" config)).

Definition createRequest (env : Env) (config : value) (name : string)
           (image : option string) (port : option Z) : Request :=
  mkRequest "POST" (to_string (field "proxyUrl" config) ++ "/api/sandboxes")
            [content_type_json; bearer config]
            (Some (JSON_stringify env
                     (VObj [("name", VStr name);
                            ("image", sandboxImage config image);
                            ("port", sandboxPort config port)]))).

Definition statusUrl (config : value) (name : string) : string :=
  to_string (field "proxyUrl" config) ++ "/api/sandboxes/" ++ name.

Definition statusRequest (config : value) (name : string) : Request :=
  Poll.statusRequest config (statusUrl config name).

Definition label (name : string) : string := "Error creating sandbox '" ++ name ++ "':".

(** What [create_sandbox] answers and logs after the poll left the
    snapshot [sandboxData]. *)
Definition answer (name : string) (sandboxData : value) : ToolResult * Trace :=
  if nullish sandboxData
  then (failure (TypeError_read sandboxData "name"),
        [EConsoleError (label name) (TypeError_read sandboxData "name")])
  else (created name (VStr "pending") sandboxData, []).
End PolledCreate.

Module TimedCreate.

(** The requests of [RemoteSandbox.create_sandbox]. *)
Definition username (config : value) : value :=
  js_or (field "username" config) (VStr "default").
Definition namespace (config : value) : value :=
  js_or (field "namespace" config) (VStr "default").

Definition createRequest (env : Env) (config : value) (name : string)
           (image : option string) (port : option Z) : Request :=
  mkRequest "POST" (to_string (field "proxyUrl" config) ++ "/api/sandboxes")
            [content_type_json]
            (Some (JSON_stringify env
                     (VObj [("name", VStr name);
                            ("username", username config);
                            ("image", sandboxImage config image);
                            ("port", sandboxPort config port);
                            ("namespace", namespace config)]))).

Definition statusRequest (config : value) (name : string) : Request :=
  GET (to_string (field "proxyUrl" config) ++ "/api/sandboxes/"
       ++ to_string (username config) ++ "/" ++ name) [].

Definition pushRequest (env : Env) (config : value) (name : string) (port : option Z)
  : Request :=
  mkRequest "POST" (to_string (field "proxyUrl" config) ++ "/" ++ to_string (username config)
                    ++ "/" ++ name ++ "/v1/shell/exec")
            [content_type_json]
            (Some (JSON_stringify env
                     (VObj [("command",
                             VStr (RemoteSandbox.settingsCommand (sandboxPort config port)))]))).

Definition waitDelay : Z := 30000.

(** What [create_sandbox] answers, and what it still does, once the
    status request got [answer]. *)
Definition finish (env : Env) (config : value) (name : string) (port : option Z)
           (answer : Outcome Response) : ToolResult * Trace :=
  match answer with
  | Thrown e => (failure e, [])
  | Returned statusResponse =>
      match (if ok statusResponse then json statusResponse else Returned (VObj [])) with
      | Thrown e => (failure e, [])
      | Returned sandboxData =>
          (if nullish sandboxData
           then failure (TypeError_read sandboxData "name")
           else created name (namespace config) sandboxData,
           [EFetch (pushRequest env config name port)])
      end
  end.
End TimedCreate.

(** ** Runtimes for the examples *)

Definition ghost_runtime : Env :=
  Double.runtime (Returned "config") Double.configured
    (fun _ _ => Returned (mkResponse 404 (Returned (VObj [("error", VStr "no such sandbox")]))))
    Double.no_shell.

Definition failing_runtime : Env :=
  Double.runtime (Returned "config") Double.configured
    (fun _ _ => Returned (mkResponse 500 (Returned (VObj [("error", VStr "boom")]))))
    Double.no_shell.

Definition unconfigured_runtime : Env :=
  Double.runtime (Returned "{}") [("{}", VObj [])]
    (fun _ _ => Double.respond 200 (VObj [])) (fun _ _ => Returned "").


(** A backend that accepts the creation and reports ready at once. *)
Definition accepting_runtime : Env :=
  Double.runtime (Returned "config") Double.configured
    (fun tr _ =>
       match tr with
       | [EReadFile _] => Double.respond 201 (VObj [("name", VStr "s1")])
       | _ => Double.respond 200 (VObj [("name", VStr "s1"); ("ready", VBool true)])
       end)
    Double.no_shell.

(** A backend that accepts the creation and then refuses every connection. *)
Definition refusing_runtime : Env :=
  Double.runtime (Returned "config") Double.configured
    (fun tr _ =>
       match tr with
       | [EReadFile _] => Double.respond 201 (VObj [("name", VStr "s1")])
       | _ => Thrown (Error "connect ECONNREFUSED")
       end)
    Double.no_shell.

(** A backend that accepts the creation and then answers every status
    request with HTTP 200 and the JSON body [null]. *)
Definition null_runtime : Env :=
  Double.runtime (Returned "config") Double.configured
    (fun tr _ =>
       match tr with
       | [EReadFile _] => Double.respond 201 (VObj [("name", VStr "s1")])
       | _ => Double.respond 200 VNull
       end)
    Double.no_shell.

(** A backend that answers every request with HTTP 200 and the body [{}]. *)
Definition empty_runtime : Env :=
  Double.runtime (Returned "config") Double.configured
    (fun _ _ => Double.respond 200 (VObj [])) Double.no_shell.

(** A cluster whose [kubectl] prints a sandbox document, with a configured
    proxy that cannot be reached. *)
Definition cluster_runtime : Env :=
  Double.runtime (Returned "config")
    [("config", Double.proxyConfig);
     ("sandbox", VObj [("metadata", VObj [("name", VStr "s1");
                                          ("namespace", VStr "default")])])]
    (fun _ _ => Thrown (Error "fetch failed")) (fun _ _ => Returned "sandbox").

(** A shell that answers every command with an empty output. *)
Definition shell_runtime : Env :=
  Double.runtime (Thrown (mkError "no such file" (Some "ENOENT"))) []
    (fun _ _ => Thrown (Error "fetch failed")) (fun _ _ => Returned "").

(** ** The requests of the single-request tools *)

Module Address.

(** The request each tool of src/remote-sandbox.ts other than
    [create_sandbox] sends, from the loaded configuration. *)
Definition remote (env : Env) (config : value) (c : Call) : option Request :=
  let base := to_string (field "proxyUrl" config) in
  let user := to_string (TimedCreate.username config) in
  let ns := to_string (TimedCreate.namespace config) in
  match c with
  | CreateSandbox _ _ _ => None
  | GetSandboxStatus name =>
      Some (GET (base ++ "/api/sandboxes/" ++ user ++ "/" ++ name) [])
  | SendPrompt name command =>
      Some (mkRequest "POST" (base ++ "/" ++ user ++ "/" ++ name ++ "/v1/shell/exec")
              [content_type_json]
              (Some (JSON_stringify env (VObj [("command", VStr command)]))))
  | ListSandboxes => Some (GET (base ++ "/api/sandboxes") [])
  | DeleteSandbox name =>
      Some (mkRequest "DELETE"
              (base ++ "/api/sandboxes/" ++ user ++ "/" ++ name ++ "?namespace=" ++ ns)
              [] None)
  | PauseSandbox name =>
      Some (mkRequest "POST"
              (base ++ "/api/sandboxes/" ++ user ++ "/" ++ name ++ "/pause?namespace=" ++ ns)
              [] None)
  | ResumeSandbox name =>
      Some (mkRequest "POST"
              (base ++ "/api/sandboxes/" ++ user ++ "/" ++ name ++ "/resume?namespace=" ++ ns)
              [] None)
  end.

(** The request each tool of src/unnamed/part_002 other than
    [create_sandbox] sends. *)
Definition bearer (env : Env) (config : value) (c : Call) : option Request :=
  let base := to_string (field "proxyUrl" config) in
  let auth := PolledCreate.bearer config in
  match c with
  | CreateSandbox _ _ _ => None
  | GetSandboxStatus name => Some (GET (base ++ "/api/sandboxes/" ++ name) [auth])
  | SendPrompt name command =>
      Some (mkRequest "POST" (base ++ "/proxy/" ++ name ++ "/v1/shell/exec")
              [content_type_json; auth]
              (Some (JSON_stringify env (VObj [("command", VStr command)]))))
  | ListSandboxes => Some (GET (base ++ "/api/sandboxes") [auth])
  | DeleteSandbox name =>
      Some (mkRequest "DELETE" (base ++ "/api/sandboxes/" ++ name) [auth] None)
  | PauseSandbox name =>
      Some (mkRequest "POST" (base ++ "/api/sandboxes/" ++ name ++ "/pause") [auth] None)
  | ResumeSandbox name =>
      Some (mkRequest "POST" (base ++ "/api/sandboxes/" ++ name ++ "/resume") [auth] None)
  end.
End Address.

(** The tools that answer with the backend's body: all but
    [create_sandbox] and [send_prompt_to_sandbox]. *)
Definition relays (c : Call) : bool :=
  match c with
  | CreateSandbox _ _ _ | SendPrompt _ _ => false
  | _ => true
  end.

(** ** The cluster CLI server, as functions of the runtime's answers *)

Module Cluster.

(** The configuration [loadConfig] of src/unnamed/part_003 answers with:
    the parsed file, or the defaults when it cannot be read or parsed. *)
Definition loaded (env : Env) : value :=
  match readFile env [] (configPath env) with
  | Thrown _ => Kubectl.defaultConfig
  | Returned content =>
      match JSON_parse env content with
      | Thrown _ => Kubectl.defaultConfig
      | Returned config => config
      end
  end.

(** [image || config.defaultImage || 'sandbox-runtime:latest']. *)
Definition image (config : value) (image : option string) : value :=
  if truthy (opt_str image) then opt_str image
  else js_or (field "defaultImage" config) (VStr "sandbox-runtime:latest").

Definition username (config : value) : value :=
  js_or (field "username" config) (VStr "default").

(** The manifest [create_sandbox] writes and the file it writes it to. *)
Definition manifest (config : value) (name : string) (img : option string)
           (port : option Z) : string :=
  Kubectl.generateSandboxYAML name (to_string (image config img))
    (to_string (sandboxPort config port)) (to_string (username config)).

Definition tmpFile (env : Env) (name : string) : string :=
  "/tmp/sandbox-" ++ name ++ "-"
  ++ string_of_Z (Date_now env [EReadFile (configPath env)]) ++ ".yaml".

(** The error [kubectl] throws when the command fails with [e]. *)
Definition kubectl_failed (e : JsError) (cmd : string) : JsError :=
  Error ("kubectl command failed: " ++ message e ++ nl ++ "Command: " ++ cmd).

(** What the callback of [sandboxList.items.map] makes of one item. *)
Definition summarised (sb : value) : Outcome value :=
  if nullish sb then Thrown (TypeError_read sb "metadata")
  else
    let metadata := field "metadata" sb in
    if nullish metadata then Thrown (TypeError_read metadata "name")
    else
      match found_condition "sb.status?.conditions?.find" sb with
      | Thrown e => Thrown e
      | Returned condition =>
          Returned
            (VObj [("name", field "name" metadata);
                   ("namespace", field "namespace" metadata);
                   ("serviceFQDN",
                    js_or (opt_field "serviceFQDN" (field "status" sb)) (VStr "pending"));
                   ("ready", VBool (strict_eq_str (opt_field "status" condition) "True"));
                   ("createdAt", field "creationTimestamp" metadata)])
      end.

Fixpoint summarised_all (items : list value) : Outcome (list value) :=
  match items with
  | [] => Returned []
  | sb :: rest =>
      match summarised sb with
      | Thrown e => Thrown e
      | Returned s =>
          match summarised_all rest with
          | Thrown e => Thrown e
          | Returned ss => Returned (s :: ss)
          end
      end
  end.

(** [sandbox.status?.selector || `sandbox=${name}`]. *)
Definition podSelector (sandbox : value) (name : string) : value :=
  js_or (opt_field "selector" (field "status" sandbox)) (VStr ("sandbox=" ++ name)).

(** What [get_sandbox_status] answers after the pod lookup left [podName]
    and [podStatus], for a sandbox document that is not [null]. *)
Definition status_payload (sandbox podName podStatus : value) : Outcome value :=
  match found_condition "sandbox.status?.conditions?.find" sandbox with
  | Thrown e => Thrown e
  | Returned condition =>
      let metadata := field "metadata" sandbox in
      let st := field "status" sandbox in
      if nullish metadata then Thrown (TypeError_read metadata "name")
      else
        Returned
          (VObj [("name", field "name" metadata);
                 ("namespace", field "namespace" metadata);
                 ("serviceFQDN", js_or (opt_field "serviceFQDN" st) (VStr "pending"));
                 ("service", js_or (opt_field "service" st) (VStr "pending"));
                 ("replicas", js_or (opt_field "replicas" st) (VNum 0));
                 ("ready", VBool (strict_eq_str (opt_field "status" condition) "True"));
                 ("readyReason", opt_field "reason" condition);
                 ("readyMessage", opt_field "message" condition);
                 ("podName", podName);
                 ("podStatus", podStatus);
                 ("createdAt", field "creationTimestamp" metadata)])
  end.
End Cluster.

(** A status answer that does not show the sandbox ready: a thrown
    request, a response that is not 2xx, a body that does not parse, or a
    snapshot that is [null] or whose [ready] is falsy. *)
Definition not_ready (answer : Outcome Response) : Prop :=
  match answer with
  | Thrown _ => True
  | Returned response =>
      ok response = true ->
      forall data, json response = Returned data ->
                   nullish data = false -> truthy (field "ready" data) = false
  end.

(** What the polling loop holds in [sandboxData] after one more status
    answer that does not end it: the body of a 2xx answer that parses
    replaces the snapshot, every other answer leaves it. *)
Definition stored (sandboxData : value) (answer : Outcome Response) : value :=
  match answer with
  | Thrown _ => sandboxData
  | Returned response =>
      if ok response
      then match json response with
           | Returned data => data
           | Thrown _ => sandboxData
           end
      else sandboxData
  end.

(** The snapshot the loop is left with after the status answers [answers],
    in the order they arrived, starting from [let sandboxData: any = {}]. *)
Definition last_snapshot (answers : list (Outcome Response)) : value :=
  fold_left stored answers (VObj []).


(** A backend that answers every request with HTTP 200 and an empty list. *)
Definition empty_list_runtime : Env :=
  Double.runtime (Returned "config") Double.configured
    (fun _ _ => Double.respond 200 (VArr [])) Double.no_shell.

(** A backend that accepts the creation, is unavailable for the first two
    status requests and reports ready at the third. *)
Definition slow_runtime : Env :=
  Double.runtime (Returned "config") Double.configured
    (fun tr _ =>
       match tr with
       | [EReadFile _] => Double.respond 201 (VObj [("name", VStr "s1")])
       | _ => if (List.length tr <? 7)%nat
              then Double.respond 503 (VObj [("error", VStr "starting")])
              else Double.respond 200 (VObj [("name", VStr "s1"); ("ready", VBool true)])
       end)
    Double.no_shell.

(** A backend that accepts the creation and then reports a sandbox that
    is not ready, however often it is asked. *)
Definition pending_runtime : Env :=
  Double.runtime (Returned "config") Double.configured
    (fun tr _ =>
       match tr with
       | [EReadFile _] => Double.respond 201 (VObj [("name", VStr "s1")])
       | _ => Double.respond 200 (VObj [("name", VStr "s1"); ("ready", VBool false)])
       end)
    Double.no_shell.

(** A cluster with two sandboxes, the first one ready, and no
    configuration file. *)
Definition listing_runtime : Env :=
  Double.runtime (Thrown (mkError "no such file" (Some "ENOENT")))
    [("list",
      VObj [("items",
             VArr [VObj [("metadata", VObj [("name", VStr "a"); ("namespace", VStr "default")]);
                         ("status",
                          VObj [("conditions",
                                 VArr [VObj [("type", VStr "Ready");
                                             ("status", VStr "True")]])])];
                   VObj [("metadata", VObj [("name", VStr "b");
                                            ("namespace", VStr "default")])]])])]
    (fun _ _ => Thrown (Error "fetch failed")) (fun _ _ => Returned "list").

(** A cluster that prints a sandbox document and then a pod list whose
    first pod has a name and no status yet. *)
Definition pod_runtime : Env :=
  Double.runtime (Thrown (mkError "no such file" (Some "ENOENT")))
    [("sandbox", VObj [("metadata", VObj [("name", VStr "s1");
                                          ("namespace", VStr "default")])]);
     ("pods", VObj [("items", VArr [VObj [("metadata", VObj [("name", VStr "s1-pod")])]])])]
    (fun _ _ => Thrown (Error "fetch failed"))
    (fun tr _ => match tr with
                 | [EReadFile _] => Returned "sandbox"
                 | _ => Returned "pods"
                 end).


(** ** Tactics *)

(** Unfolding of the monadic combinators, for symbolic execution. *)
Ltac run_monad :=
  unfold or_else, fs_readFile, fs_writeFile, fs_unlink, do_fetch, sleep, exec, now,
    console_error, parse, stringify, response_json, perform, load, store, lift, ask,
    try_catch, bind, ret, throw in *;
  cbn beta iota in *.

Ltac run_goal :=
  unfold or_else, fs_readFile, fs_writeFile, fs_unlink, do_fetch, sleep, exec, now,
    console_error, parse, stringify, response_json, perform, load, store, lift, ask,
    try_catch, bind, ret, throw;
  cbn beta iota.

(** Case analysis on every answer of the runtime that the goal inspects,
    innermost first. *)
Ltac split_answers_using rw :=
  repeat (cbn [fst snd List.length app Nat.eqb negb]; rw;
          match goal with
          | H : ?x = _ |- context [match ?x with _ => _ end] => rewrite H
          | |- context [match ?x with _ => _ end] =>
              lazymatch x with
              | context [match _ with _ => _ end] => fail
              | _ => destruct x eqn:?
              end
          end).

Ltac split_answers := split_answers_using idtac.

(** * Properties *)

(** ** The monad and the primitives *)

Lemma try_bind_thrown {L A B} (m : M L A) (k : A -> M L B) (h : JsError -> M L B)
      env l tr e l' tr' :
  m env l tr = (Thrown e, l', tr') ->
  try_catch (bind m k) h env l tr = h e env l' tr'.
Proof. intros H. unfold try_catch, bind. rewrite H. reflexivity. Qed.

Lemma try_bind_returned {L A B} (m : M L A) (k : A -> M L B) (h : JsError -> M L B)
      env l tr a l' tr' :
  m env l tr = (Returned a, l', tr') ->
  try_catch (bind m k) h env l tr = try_catch (k a) h env l' tr'.
Proof. intros H. unfold try_catch, bind. rewrite H. reflexivity. Qed.

Lemma opt_field_defined (v : value) (k : string) :
  nullish v = false -> opt_field k v = field k v.
Proof. intros H. unfold opt_field. rewrite H. reflexivity. Qed.

Lemma truthy_opt_field (k : string) (v : value) :
  truthy (opt_field k v) = true -> nullish v = false.
Proof. unfold opt_field. destruct (nullish v); simpl; congruence. Qed.

(** ** Loading the configuration *)

Section LoadConfig.
Variable env : Env.
Variables (content : string) (config : value).
Hypothesis file : readFile env [] (configPath env) = Returned content.
Hypothesis parsed : JSON_parse env content = Returned config.

Lemma RemoteSandbox_loadConfig_ok {L} (l : L) :
  truthy (opt_field "proxyUrl" config) = true ->
  RemoteSandbox.loadConfig env l [] = (Returned config, l, [EReadFile (configPath env)]).
Proof.
  intros Hp. pose proof (truthy_opt_field _ _ Hp) as Hn.
  rewrite (opt_field_defined _ _ Hn) in Hp.
  unfold RemoteSandbox.loadConfig, get. run_monad.
  rewrite file, parsed, Hn, Hp. reflexivity.
Qed.

Lemma RemoteSandbox_loadConfig_missing {L} (l : L) :
  missing "proxyUrl" config ->
  exists e, RemoteSandbox.loadConfig env l [] = (Thrown e, l, [EReadFile (configPath env)])
            /\ includes "proxyUrl" (message e) = true.
Proof.
  unfold missing, opt_field. intros Hm.
  unfold RemoteSandbox.loadConfig, get. run_monad. rewrite file, parsed.
  destruct (nullish config) eqn:Hn.
  - destruct config; try discriminate Hn; simpl; eexists; split; reflexivity.
  - rewrite Hm. simpl. eexists; split; reflexivity.
Qed.

Lemma ApiKeyProxy_loadConfig_ok {L} (l : L) :
  truthy (opt_field "proxyUrl" config) = true ->
  truthy (opt_field "apiKey" config) = true ->
  ApiKeyProxy.loadConfig env l [] = (Returned config, l, [EReadFile (configPath env)]).
Proof.
  intros Hp Hk. pose proof (truthy_opt_field _ _ Hp) as Hn.
  rewrite (opt_field_defined _ _ Hn) in Hp. rewrite (opt_field_defined _ _ Hn) in Hk.
  unfold ApiKeyProxy.loadConfig, get. run_monad.
  rewrite file, parsed, Hn, Hp. cbn. rewrite Hk. reflexivity.
Qed.

Lemma ApiKeyProxy_loadConfig_missing {L} (l : L) (k : string) :
  In k ["proxyUrl"; "apiKey"] ->
  missing k config ->
  exists e k', ApiKeyProxy.loadConfig env l [] = (Thrown e, l, [EReadFile (configPath env)])
               /\ In k' ["proxyUrl"; "apiKey"] /\ missing k' config
               /\ includes k' (message e) = true.
Proof.
  unfold missing, opt_field. intros Hk Hm.
  unfold ApiKeyProxy.loadConfig, get. run_monad. rewrite file, parsed.
  destruct (nullish config) eqn:Hn.
  - destruct config; try discriminate Hn; simpl;
      eexists; exists "proxyUrl"; (split; [reflexivity |]); simpl; auto.
  - destruct (truthy (field "proxyUrl" config)) eqn:Hp; simpl.
    + destruct Hk as [<- | [<- | []]]; [congruence |].
      rewrite Hm. simpl. eexists; exists "apiKey"; simpl.
      split; [reflexivity |]. repeat split; auto.
    + eexists; exists "proxyUrl"; simpl.
      split; [reflexivity |]. repeat split; auto.
Qed.

Lemma Kubectl_loadConfig_ok {L} (l : L) :
  Kubectl.loadConfig env l [] = (Returned config, l, [EReadFile (configPath env)]).
Proof. unfold Kubectl.loadConfig. run_monad. rewrite file, parsed. reflexivity. Qed.
End LoadConfig.

(** ** Handlers that forward one request *)








(** ** Missing configuration *)

Lemma RemoteSandbox_tool_starts_with_loadConfig call :
  exists k, RemoteSandbox_tool call
            = try_catch (bind RemoteSandbox.loadConfig k) (fun error => ret (failure error)).
Proof. destruct call; eexists; reflexivity. Qed.

Lemma ApiKeyProxy_tool_starts_with_loadConfig call :
  exists k label, ApiKeyProxy_tool call
                  = try_catch (bind ApiKeyProxy.loadConfig k) (ApiKeyProxy.report label).
Proof. destruct call; eexists; eexists; reflexivity. Qed.

(** C6, as the code has it.  With a configuration file that loads, a call
    fails before any network request or process invocation when a field its
    server requires is missing, and the error message names a missing
    required field: [proxyUrl] for every tool of src/remote-sandbox.ts;
    [proxyUrl] and [apiKey] for every tool of the bearer-credential server;
    [proxyUrl] for [send_prompt_to_sandbox] of the cluster CLI server, the
    only tool there that needs a configured field.  The cluster CLI server
    requires no field for its other tools: whatever the loaded configuration
    lacks, [delete_sandbox] invokes its [kubectl] command and answers
    success when the command exits normally. *)
Theorem missing_config_fails_before_io :
  forall env content config,
    readFile env [] (configPath env) = Returned content ->
    JSON_parse env content = Returned config ->
    (forall call,
        missing "proxyUrl" config ->
        exists e,
          run (RemoteSandbox_tool call) env tt
          = (Returned (failure e), [EReadFile (configPath env)])
          /\ includes "proxyUrl" (message e) = true)
    /\ (forall call k,
           In k ["proxyUrl"; "apiKey"] -> missing k config ->
           exists e k' label,
             run (ApiKeyProxy_tool call) env noPollVars
             = (Returned (failure e), [EReadFile (configPath env); EConsoleError label e])
             /\ In k' ["proxyUrl"; "apiKey"] /\ missing k' config
             /\ includes k' (message e) = true)
    /\ (forall name command,
           missing "proxyUrl" config ->
           exists e,
             run (Kubectl.send_prompt_to_sandbox name command) env tt
             = (Returned (failure e), [EReadFile (configPath env)])
             /\ includes "proxyUrl" (message e) = true)
    /\ (forall name,
           exists result,
             run (Kubectl.delete_sandbox name) env tt
             = (Returned result,
                [EReadFile (configPath env);
                 EExec (Kubectl.kubectl_cmd ["delete"; "sandbox"; name] config)])
             /\ (forall stdout,
                    execAsync env [EReadFile (configPath env)]
                              (Kubectl.kubectl_cmd ["delete"; "sandbox"; name] config)
                    = Returned stdout ->
                    field "success" result = VBool true)).
Proof.
  intros env content config Hfile Hparse. split; [| split; [| split]].
  - intros call Hm.
    destruct (RemoteSandbox_loadConfig_missing env content config Hfile Hparse tt Hm)
      as (e & Hl & Hi).
    destruct (RemoteSandbox_tool_starts_with_loadConfig call) as (k & ->).
    exists e. split; [| exact Hi].
    unfold run. rewrite (try_bind_thrown _ _ _ _ _ _ _ _ _ Hl). reflexivity.
  - intros call k Hk Hm.
    destruct (ApiKeyProxy_loadConfig_missing env content config Hfile Hparse noPollVars k Hk Hm)
      as (e & k' & Hl & Hk' & Hm' & Hi).
    destruct (ApiKeyProxy_tool_starts_with_loadConfig call) as (c & label & ->).
    exists e, k', label. split; [| auto].
    unfold run. rewrite (try_bind_thrown _ _ _ _ _ _ _ _ _ Hl). reflexivity.
  - intros name command Hm. unfold missing, opt_field in Hm.
    unfold run, Kubectl.send_prompt_to_sandbox.
    rewrite (try_bind_returned _ _ _ _ _ _ _ _ _
               (Kubectl_loadConfig_ok env content config Hfile Hparse tt)).
    unfold get. run_monad.
    destruct (nullish config) eqn:Hn.
    + destruct config; try discriminate Hn; eexists; split; reflexivity.
    + rewrite Hm. eexists; split; reflexivity.
  - intros name. unfold run, Kubectl.delete_sandbox.
    rewrite (try_bind_returned _ _ _ _ _ _ _ _ _
               (Kubectl_loadConfig_ok env content config Hfile Hparse tt)).
    unfold Kubectl.kubectl. run_goal.
    destruct (execAsync env _ (Kubectl.kubectl_cmd ["delete"; "sandbox"; name] config));
      eexists; (split; [reflexivity |]); intros stdout H; [reflexivity | discriminate H].
Qed.

(** C6, as stated, fails on the cluster CLI server: with [proxyUrl] missing
    from the loaded configuration, [delete_sandbox] invokes [kubectl] and
    answers success. *)
Lemma cluster_delete_needs_no_proxyUrl :
  missing "proxyUrl" (VObj [])
  /\ JSON_parse unconfigured_runtime "{}" = Returned (VObj [])
  /\ run (Kubectl.delete_sandbox "s1") unconfigured_runtime tt
     = (Returned (VObj [("success", VBool true);
                        ("message", VStr "Sandbox 's1' deleted successfully")]),
        [EReadFile Double.path; EExec "kubectl   delete sandbox s1"]).
Proof. split; [reflexivity |]. split; vm_compute; reflexivity. Qed.

Lemma missing_config_fails_before_io_witness :
  missing "proxyUrl" (VObj [])
  /\ (exists e,
         run (RemoteSandbox_tool (CreateSandbox "s1" None None)) unconfigured_runtime tt
         = (Returned (failure e), [EReadFile Double.path])
         /\ includes "proxyUrl" (message e) = true)
  /\ (exists e k label,
         run (ApiKeyProxy_tool (DeleteSandbox "s1")) unconfigured_runtime noPollVars
         = (Returned (failure e), [EReadFile Double.path; EConsoleError label e])
         /\ In k ["proxyUrl"; "apiKey"] /\ missing k (VObj [])
         /\ includes k (message e) = true)
  /\ (exists e,
         run (Kubectl.send_prompt_to_sandbox "s1" "ls") unconfigured_runtime tt
         = (Returned (failure e), [EReadFile Double.path])
         /\ includes "proxyUrl" (message e) = true).
Proof.
  destruct (missing_config_fails_before_io unconfigured_runtime "{}" (VObj [])
              eq_refl eq_refl) as (H1 & H2 & H3 & _).
  split; [reflexivity |]. split; [| split].
  - exact (H1 (CreateSandbox "s1" None None) eq_refl).
  - exact (H2 (DeleteSandbox "s1") "apiKey" (or_intror (or_introl eq_refl)) eq_refl).
  - exact (H3 "s1" "ls" eq_refl).
Defined.

(** ** Executing a command *)


Section SendPrompt.
Variable env : Env.
Variables (content : string) (config : value) (response : Response).
Variables name command : string.
Hypothesis file : readFile env [] (configPath env) = Returned content.
Hypothesis parsed : JSON_parse env content = Returned config.
Hypothesis proxy : truthy (opt_field "proxyUrl" config) = true.
Hypothesis answered : forall req, fetch env [EReadFile (configPath env)] req = Returned response.



End SendPrompt.


Section SendPromptThrown.
Variable env : Env.
Variables (content : string) (config : value) (e : JsError).
Variables name command : string.
Hypothesis file : readFile env [] (configPath env) = Returned content.
Hypothesis parsed : JSON_parse env content = Returned config.
Hypothesis proxy : truthy (opt_field "proxyUrl" config) = true.
Hypothesis unanswered : forall req, fetch env [EReadFile (configPath env)] req = Thrown e.



End SendPromptThrown.





(** ** The best-effort settings push *)

Lemma RemoteSandbox_loadConfig_cases {L} env (l : L) tr :
  (exists e, RemoteSandbox.loadConfig env l tr
             = (Thrown e, l, (tr ++ [EReadFile (configPath env)])%list))
  \/ (exists config, RemoteSandbox.loadConfig env l tr
                     = (Returned config, l, (tr ++ [EReadFile (configPath env)])%list)
                     /\ nullish config = false
                     /\ truthy (field "proxyUrl" config) = true).
Proof.
  unfold RemoteSandbox.loadConfig, get. run_monad.
  destruct (readFile env tr (configPath env)) as [content | e].
  - destruct (JSON_parse env content) as [config | e].
    + destruct (nullish config) eqn:Hn.
      * left. destruct (code_is _ "ENOENT"); eexists; reflexivity.
      * destruct (truthy (field "proxyUrl" config)) eqn:Hp; simpl.
        -- right. exists config. auto.
        -- left. eexists; reflexivity.
    + left. destruct (code_is e "ENOENT"); eexists; reflexivity.
  - left. destruct (code_is e "ENOENT"); eexists; reflexivity.
Qed.

Lemma Kubectl_loadConfig_cases {L} env (l : L) tr :
  exists config, Kubectl.loadConfig env l tr
                 = (Returned config, l, (tr ++ [EReadFile (configPath env)])%list).
Proof.
  unfold Kubectl.loadConfig. run_monad.
  destruct (readFile env tr (configPath env)) as [content | e].
  - destruct (JSON_parse env content); eexists; reflexivity.
  - eexists; reflexivity.
Qed.

Lemma RemoteSandbox_loadConfig_push {L} n o env (l : L) tr :
  RemoteSandbox.loadConfig (push_outcome n o env) l tr = RemoteSandbox.loadConfig env l tr.
Proof.
  unfold RemoteSandbox.loadConfig, get. run_monad.
  cbn [push_outcome readFile configPath JSON_parse].
  split_answers; reflexivity.
Qed.

Lemma Kubectl_loadConfig_push {L} n o env (l : L) tr :
  Kubectl.loadConfig (push_outcome n o env) l tr = Kubectl.loadConfig env l tr.
Proof.
  unfold Kubectl.loadConfig. run_monad.
  cbn [push_outcome readFile configPath JSON_parse].
  split_answers; reflexivity.
Qed.

Lemma find_Ready_spec {L} env conditions (l : L) tr :
  Kubectl.find_Ready conditions env l tr = (found_Ready conditions, l, tr).
Proof.
  induction conditions as [| c rest IH]; [reflexivity |].
  cbn [Kubectl.find_Ready found_Ready]. unfold get. run_goal.
  destruct (nullish c); [reflexivity |].
  destruct (strict_eq_str (field "type" c) "Ready"); [reflexivity | exact IH].
Qed.

Lemma ready_condition_spec {L} env expr owner (l : L) tr :
  Kubectl.ready_condition expr owner env l tr = (found_condition expr owner, l, tr).
Proof.
  unfold Kubectl.ready_condition, found_condition, get. run_goal.
  destruct (nullish owner); [reflexivity |].
  destruct (nullish (opt_field "conditions" (field "status" owner))); [reflexivity |].
  destruct (opt_field "conditions" (field "status" owner)); try reflexivity.
  apply find_Ready_spec.
Qed.

(** C7.  The settings push is best effort: whatever the push request is
    answered with ([o]: a response of any status, or a thrown error),
    [create_sandbox] answers exactly as it does on the unaltered runtime.  In
    src/remote-sandbox.ts the push is the request made after four effects
    (configuration read, creation request, delay, status request); in the
    cluster CLI server it is the request made after seven (configuration
    read, clock, manifest write, apply, unlink, delay, get). *)
Theorem settings_push_is_best_effort :
  forall env o name image port,
    fst (run (RemoteSandbox.create_sandbox name image port) (push_outcome 4 o env) tt)
    = fst (run (RemoteSandbox.create_sandbox name image port) env tt)
    /\ fst (run (Kubectl.create_sandbox name image port) (push_outcome 7 o env) tt)
       = fst (run (Kubectl.create_sandbox name image port) env tt).
Proof.
  intros env o name image port. split.
  - unfold run, RemoteSandbox.create_sandbox.
    destruct (RemoteSandbox_loadConfig_cases env tt [])
      as [(e & Hl) | (config & Hl & Hn & Hp)];
      pose proof Hl as Hl'; rewrite <- (RemoteSandbox_loadConfig_push 4 o) in Hl'.
    + rewrite (try_bind_thrown _ _ _ _ _ _ _ _ _ Hl), (try_bind_thrown _ _ _ _ _ _ _ _ _ Hl').
      reflexivity.
    + rewrite (try_bind_returned _ _ _ _ _ _ _ _ _ Hl),
        (try_bind_returned _ _ _ _ _ _ _ _ _ Hl').
      unfold RemoteSandbox.throw_backend_error, get. run_monad. rewrite Hn.
      cbn [push_outcome fetch JSON_stringify].
      split_answers; reflexivity.
  - unfold run, Kubectl.create_sandbox.
    destruct (Kubectl_loadConfig_cases env tt []) as (config & Hl).
    pose proof Hl as Hl'. rewrite <- (Kubectl_loadConfig_push 7 o) in Hl'.
    rewrite (try_bind_returned _ _ _ _ _ _ _ _ _ Hl),
      (try_bind_returned _ _ _ _ _ _ _ _ _ Hl').
    unfold Kubectl.kubectl, get. run_monad.
    cbn [push_outcome fetch JSON_stringify JSON_parse writeFile unlink execAsync
                      Date_now String_trim].
    split_answers_using ltac:(rewrite ?ready_condition_spec); reflexivity.
Qed.

(** The request that [push_outcome] replaces the answer of is the settings
    push, and a push that throws leaves the creation a success. *)
Example remote_sandbox_push_is_fifth_effect :
  nth_error (snd (run (RemoteSandbox.create_sandbox "s1" None None) accepting_runtime tt)) 4
  = Some (EFetch (TimedCreate.pushRequest accepting_runtime Double.proxyConfig "s1" None)).
Proof. vm_compute. reflexivity. Qed.

Example kubectl_push_is_eighth_effect :
  nth_error (snd (run (Kubectl.create_sandbox "s1" None None) cluster_runtime tt)) 7
  = Some (EFetch (TimedCreate.pushRequest cluster_runtime Double.proxyConfig "s1" None))
  /\ fst (run (Kubectl.create_sandbox "s1" None None) cluster_runtime tt)
     = Returned (VObj [("success", VBool true);
                       ("message", VStr "Sandbox 's1' created successfully");
                       ("sandbox", VObj [("name", VStr "s1");
                                         ("namespace", VStr "default");
                                         ("serviceFQDN", VStr "pending");
                                         ("ready", VBool false)])]).
Proof. split; vm_compute; reflexivity. Qed.

(** ** The readiness poll of the bearer-credential server *)

Section PollLoop.
Import ApiKeyProxy Poll.

Variable env : Env.
Variables (config : value) (statusUrl : string).
Hypothesis config_loaded : nullish config = false.

Let req := statusRequest config statusUrl.

Lemma attempt_spec vars tr :
  attempt statusUrl config env vars tr
  = (Returned (fst (observed (fetch env tr req) vars)),
     snd (observed (fetch env tr req) vars),
     (tr ++ [EFetch req])%list).
Proof.
  unfold attempt, authorization, observed, get, req, statusRequest. run_goal.
  rewrite config_loaded. cbn beta iota.
  destruct (fetch env tr _) as [response | e]; [| reflexivity].
  destruct (ok response); [| reflexivity].
  destruct (json response) as [data | e]; [| reflexivity].
  cbn [sandboxData ready].
  destruct (nullish data); [reflexivity |].
  destruct (truthy (field "ready" data)); reflexivity.
Qed.

Lemma poll_step n vars tr :
  poll (S n) statusUrl config env vars tr
  = let tr1 := (tr ++ [ESleep pollDelay])%list in
    let tr2 := (tr1 ++ [EFetch req])%list in
    let o := observed (fetch env tr1 req) vars in
    if fst o then (Returned tt, snd o, tr2)
    else poll n statusUrl config env (snd o) tr2.
Proof.
  cbn [poll]. run_goal. rewrite attempt_spec.
  destruct (fst (observed _ vars)); reflexivity.
Qed.

Lemma observed_cases answer vars :
  snapshot_pending vars ->
  (fst (observed answer vars) = true /\ ready (snd (observed answer vars)) = true
   /\ snapshot_ready (snd (observed answer vars)))
  \/ (fst (observed answer vars) = false
      /\ ready (snd (observed answer vars)) = ready vars
      /\ snapshot_pending (snd (observed answer vars))).
Proof.
  unfold observed, snapshot_ready, snapshot_pending. intros Hv.
  destruct answer as [response | e]; [| auto].
  destruct (ok response); [| auto].
  destruct (json response) as [data | e]; [| auto].
  destruct (nullish data) eqn:Hn; [right; cbn; intuition congruence |].
  destruct (truthy (field "ready" data)) eqn:Hr; cbn; auto.
Qed.

(** The loop always completes normally, after [k] rounds; it stops
    short of the remaining budget only on a snapshot that reports
    ready. *)
Lemma poll_spec n :
  forall vars tr,
    ready vars = false ->
    snapshot_pending vars ->
    exists k vars',
      poll n statusUrl config env vars tr
      = (Returned tt, vars', (tr ++ rounds k pollDelay req)%list)
      /\ (k <= n)%nat
      /\ (ready vars' = true -> snapshot_ready vars')
      /\ (ready vars' = false -> k = n /\ snapshot_pending vars').
Proof.
  induction n as [| n IH]; intros vars tr Hr Hv.
  - exists 0%nat, vars. cbn [poll rounds]. rewrite app_nil_r.
    split; [reflexivity |]. split; [lia |]. split; [congruence | auto].
  - rewrite poll_step. cbv zeta.
    destruct (observed_cases (fetch env (tr ++ [ESleep pollDelay])%list req) vars Hv)
      as [(Hb & Hrd & Hs) | (Hb & Hrd & Hs)]; rewrite Hb.
    + exists 1%nat. eexists. cbn [rounds]. rewrite <- app_assoc.
      split; [reflexivity |]. split; [lia |]. split; [auto | congruence].
    + destruct (IH (snd (observed (fetch env (tr ++ [ESleep pollDelay])%list req) vars))
                   ((tr ++ [ESleep pollDelay]) ++ [EFetch req])%list)
        as (k & vars' & Hp & Hk & Hs' & He); [congruence | exact Hs |].
      exists (S k), vars'. rewrite Hp.
      rewrite <- !app_assoc. cbn [app rounds].
      split; [reflexivity |]. split; [lia |]. split; [exact Hs' |].
      intros H. destruct (He H) as [-> Hpend]. auto.
Qed.

(** A transport error leaves the locals alone and the loop goes on. *)
Lemma poll_continues_on_error n vars tr e :
  fetch env (tr ++ [ESleep pollDelay])%list req = Thrown e ->
  poll (S n) statusUrl config env vars tr
  = poll n statusUrl config env vars (tr ++ [ESleep pollDelay; EFetch req])%list.
Proof.
  intros H. rewrite poll_step. cbv zeta. rewrite H. cbn [observed fst snd].
  rewrite <- app_assoc. reflexivity.
Qed.

(** When every attempt fails at the transport level the loop runs all
    its rounds and leaves the locals as they were. *)
Lemma poll_all_errors n :
  (forall tr, exists e, fetch env (tr ++ [ESleep pollDelay])%list req = Thrown e) ->
  forall vars tr,
    poll n statusUrl config env vars tr
    = (Returned tt, vars, (tr ++ rounds n pollDelay req)%list).
Proof.
  intros Herr. induction n as [| n IH]; intros vars tr.
  - cbn [poll rounds]. rewrite app_nil_r. reflexivity.
  - destruct (Herr tr) as (e & He).
    rewrite (poll_continues_on_error _ _ _ _ He), IH.
    rewrite <- app_assoc. reflexivity.
Qed.

Lemma slept_rounds k delay r : slept (rounds k delay r) = (Z.of_nat k * delay)%Z.
Proof. induction k as [| k IH]; [reflexivity |]. cbn [rounds slept]. lia. Qed.
End PollLoop.

(** ** Creating a sandbox *)

Section PolledAccepted.
Import PolledCreate.

Variable env : Env.
Variables (content : string) (config : value).
Variables (name : string) (image : option string) (port : option Z).
Variables (createResponse : Response) (createData : value).
Hypothesis file : readFile env [] (configPath env) = Returned content.
Hypothesis parsed : JSON_parse env content = Returned config.
Hypothesis proxy : truthy (opt_field "proxyUrl" config) = true.
Hypothesis key : truthy (opt_field "apiKey" config) = true.
Hypothesis accepted :
  fetch env [EReadFile (configPath env)] (createRequest env config name image port)
  = Returned createResponse.
Hypothesis created_ok : ok createResponse = true.
Hypothesis created_body : json createResponse = Returned createData.

Let start : Trace :=
  [EReadFile (configPath env); EFetch (createRequest env config name image port)].

Lemma ApiKeyProxy_create_accepted :
  exists k vars,
    ApiKeyProxy.poll ApiKeyProxy.maxAttempts (statusUrl config name) config env
                     (ApiKeyProxy.mkPollVars (VObj []) false) start
    = (Returned tt, vars,
       (start ++ rounds k ApiKeyProxy.pollDelay (statusRequest config name))%list)
    /\ (k <= ApiKeyProxy.maxAttempts)%nat
    /\ (ApiKeyProxy.ready vars = true -> Poll.snapshot_ready vars)
    /\ (ApiKeyProxy.ready vars = false ->
        k = ApiKeyProxy.maxAttempts /\ Poll.snapshot_pending vars)
    /\ run (ApiKeyProxy.create_sandbox name image port) env noPollVars
       = (Returned (fst (answer name (ApiKeyProxy.sandboxData vars))),
          (start ++ rounds k ApiKeyProxy.pollDelay (statusRequest config name)
                 ++ snd (answer name (ApiKeyProxy.sandboxData vars)))%list).
Proof.
  pose proof (truthy_opt_field _ _ proxy) as Hn.
  destruct (poll_spec env config (statusUrl config name) Hn
              ApiKeyProxy.maxAttempts (ApiKeyProxy.mkPollVars (VObj []) false)
              start eq_refl (fun _ => eq_refl))
    as (k & vars & Hpoll & Hk & Hready & Hexhausted).
  exists k, vars. repeat (split; [assumption |]).
  unfold run, ApiKeyProxy.create_sandbox.
  rewrite (try_bind_returned _ _ _ _ _ _ _ _ _
             (ApiKeyProxy_loadConfig_ok env content config file parsed noPollVars
                                        proxy key)).
  unfold ApiKeyProxy.throw_backend_error, ApiKeyProxy.authorization,
    ApiKeyProxy.report, get, answer.
  revert accepted Hpoll.
  unfold start, createRequest, bearer, sandboxImage, sandboxPort, created.
  run_goal. rewrite Hn.
  destruct (truthy (opt_str image)); destruct (truthy (opt_num port));
    intros accepted Hpoll;
    cbn beta iota; rewrite ?Hn; cbn beta iota;
    rewrite accepted, created_ok, created_body; cbn [negb app];
    (match goal with
     | |- context [ApiKeyProxy.poll ?n ?u ?c ?e ?v ?t] =>
         change (ApiKeyProxy.poll n u c e v t)
           with (ApiKeyProxy.poll ApiKeyProxy.maxAttempts (statusUrl config name)
                   config env (ApiKeyProxy.mkPollVars (VObj []) false) t)
     end);
    rewrite Hpoll; cbn beta iota;
    destruct (nullish (ApiKeyProxy.sandboxData vars)) eqn:Hsd;
    cbn [fst snd]; rewrite ?app_nil_r, ?app_assoc; reflexivity.
Qed.
End PolledAccepted.

Section TimedAccepted.
Import TimedCreate.

Variable env : Env.
Variables (content : string) (config : value).
Variables (name : string) (image : option string) (port : option Z).
Variables (createResponse : Response) (createData : value).
Hypothesis file : readFile env [] (configPath env) = Returned content.
Hypothesis parsed : JSON_parse env content = Returned config.
Hypothesis proxy : truthy (opt_field "proxyUrl" config) = true.
Hypothesis accepted :
  fetch env [EReadFile (configPath env)] (createRequest env config name image port)
  = Returned createResponse.
Hypothesis created_ok : ok createResponse = true.
Hypothesis created_body : json createResponse = Returned createData.

Let start : Trace :=
  [EReadFile (configPath env); EFetch (createRequest env config name image port)].

Lemma RemoteSandbox_create_accepted :
  let answer := fetch env (start ++ [ESleep waitDelay])%list (statusRequest config name) in
  run (RemoteSandbox.create_sandbox name image port) env tt
  = (Returned (fst (finish env config name port answer)),
     (start ++ rounds 1 waitDelay (statusRequest config name)
            ++ snd (finish env config name port answer))%list).
Proof.
  pose proof (truthy_opt_field _ _ proxy) as Hn.
  unfold run, RemoteSandbox.create_sandbox.
  rewrite (try_bind_returned _ _ _ _ _ _ _ _ _
             (RemoteSandbox_loadConfig_ok env content config file parsed tt proxy)).
  unfold RemoteSandbox.throw_backend_error, get, finish, waitDelay.
  revert accepted.
  unfold start, createRequest, statusRequest, pushRequest, username, namespace,
    sandboxImage, sandboxPort, created, GET.
  run_goal. rewrite Hn.
  destruct (truthy (opt_str image)); destruct (truthy (opt_num port));
    intros accepted;
    cbn beta iota; rewrite ?Hn; cbn beta iota;
    rewrite accepted, created_ok, created_body; cbn [negb app rounds];
    split_answers; reflexivity.
Qed.
End TimedAccepted.

(** ** Waiting for readiness *)

Lemma slept_app tr1 tr2 : slept (tr1 ++ tr2)%list = (slept tr1 + slept tr2)%Z.
Proof.
  induction tr1 as [| e tr1 IH]; [reflexivity |].
  destruct e; cbn [app slept]; lia.
Qed.

Lemma slept_no_delays tr : delays tr = [] -> slept tr = 0%Z.
Proof.
  induction tr as [| e tr IH]; [reflexivity |].
  destruct e; cbn [delays slept]; auto. discriminate.
Qed.

Lemma answer_is_quiet name sandboxData :
  delays (snd (PolledCreate.answer name sandboxData)) = []
  /\ requests (snd (PolledCreate.answer name sandboxData)) = [].
Proof. unfold PolledCreate.answer. destruct (nullish sandboxData); auto. Qed.

Lemma finish_is_quiet env config name port answer :
  delays (snd (TimedCreate.finish env config name port answer)) = []
  /\ (snd (TimedCreate.finish env config name port answer) = []
      \/ snd (TimedCreate.finish env config name port answer)
         = [EFetch (TimedCreate.pushRequest env config name port)]).
Proof.
  unfold TimedCreate.finish. destruct answer as [r | e]; [| auto].
  destruct (if ok r then json r else Returned (VObj [])); auto.
Qed.

(** C1, as the code has it.  Once the backend accepted the creation request:
    the bearer-credential server waits in at most 12 rounds, each a fixed
    5000 ms delay followed by one status request, and performs no other
    delay or request, so it waits 60 s at most; src/remote-sandbox.ts waits
    in exactly one round, a fixed 30000 ms delay followed by one status
    request, and after it performs no delay and at most the settings push. *)
Theorem readiness_wait_is_bounded :
  forall env content config name image port createResponse createData,
    readFile env [] (configPath env) = Returned content ->
    JSON_parse env content = Returned config ->
    truthy (opt_field "proxyUrl" config) = true ->
    ok createResponse = true ->
    json createResponse = Returned createData ->
    (truthy (opt_field "apiKey" config) = true ->
     fetch env [EReadFile (configPath env)]
           (PolledCreate.createRequest env config name image port)
     = Returned createResponse ->
     exists k tail,
       snd (run (ApiKeyProxy.create_sandbox name image port) env noPollVars)
       = ([EReadFile (configPath env);
           EFetch (PolledCreate.createRequest env config name image port)]
            ++ rounds k 5000 (PolledCreate.statusRequest config name) ++ tail)%list
       /\ (k <= 12)%nat
       /\ delays tail = [] /\ requests tail = []
       /\ (slept (snd (run (ApiKeyProxy.create_sandbox name image port) env noPollVars))
           <= 60000)%Z)
    /\ (fetch env [EReadFile (configPath env)]
              (TimedCreate.createRequest env config name image port)
        = Returned createResponse ->
        exists tail,
          snd (run (RemoteSandbox.create_sandbox name image port) env tt)
          = ([EReadFile (configPath env);
              EFetch (TimedCreate.createRequest env config name image port)]
               ++ rounds 1 30000 (TimedCreate.statusRequest config name) ++ tail)%list
          /\ delays tail = []
          /\ (tail = [] \/ tail = [EFetch (TimedCreate.pushRequest env config name port)])
          /\ slept (snd (run (RemoteSandbox.create_sandbox name image port) env tt))
             = 30000%Z).
Proof.
  intros env content config name image port createResponse createData
         Hfile Hparse Hp Hok Hbody. split.
  - intros Hk Hacc.
    destruct (ApiKeyProxy_create_accepted env content config name image port
                createResponse createData Hfile Hparse Hp Hk Hacc Hok Hbody)
      as (k & vars & _ & Hle & _ & _ & Hrun).
    destruct (answer_is_quiet name (ApiKeyProxy.sandboxData vars)) as [Hd Hr].
    exists k, (snd (PolledCreate.answer name (ApiKeyProxy.sandboxData vars))).
    rewrite Hrun. cbn [snd]. split; [reflexivity |].
    split; [exact Hle |]. split; [exact Hd |]. split; [exact Hr |].
    rewrite !slept_app, slept_rounds, (slept_no_delays _ Hd).
    unfold ApiKeyProxy.maxAttempts, ApiKeyProxy.pollDelay in *. cbn [slept]. lia.
  - intros Hacc.
    pose proof (RemoteSandbox_create_accepted env content config name image port
                  createResponse createData Hfile Hparse Hp Hacc Hok Hbody) as Hrun.
    cbv zeta in Hrun.
    match type of Hrun with
    | context [TimedCreate.finish env config name port ?a] =>
        destruct (finish_is_quiet env config name port a) as [Hd Ht];
        exists (snd (TimedCreate.finish env config name port a))
    end.
    rewrite Hrun. cbn [snd]. split; [reflexivity |].
    split; [exact Hd |]. split; [exact Ht |].
    rewrite !slept_app, (slept_no_delays _ Hd). reflexivity.
Qed.

Lemma readiness_wait_is_bounded_witness :
  (exists k tail,
      snd (run (ApiKeyProxy.create_sandbox "s1" None None) accepting_runtime noPollVars)
      = ([EReadFile Double.path;
          EFetch (PolledCreate.createRequest accepting_runtime Double.proxyConfig
                    "s1" None None)]
           ++ rounds k 5000 (PolledCreate.statusRequest Double.proxyConfig "s1") ++ tail)%list
      /\ (k <= 12)%nat)
  /\ slept (snd (run (RemoteSandbox.create_sandbox "s1" None None) accepting_runtime tt))
     = 30000%Z.
Proof.
  destruct (readiness_wait_is_bounded accepting_runtime "config" Double.proxyConfig
              "s1" None None
              (mkResponse 201 (Returned (VObj [("name", VStr "s1")])))
              (VObj [("name", VStr "s1")])
              eq_refl eq_refl eq_refl eq_refl eq_refl) as [H2 H1].
  split.
  - destruct (H2 eq_refl eq_refl) as (k & tail & Htr & Hk & _).
    exists k, tail. split; [exact Htr | exact Hk].
  - destruct (H1 eq_refl) as (tail & _ & _ & _ & Hs). exact Hs.
Defined.

(** C1, as stated, fails on src/remote-sandbox.ts: the delay before its
    status request is 30000 ms and not 5000 ms. *)
Lemma remote_sandbox_waits_30_seconds :
  snd (run (RemoteSandbox.create_sandbox "s1" None None) accepting_runtime tt)
  = [EReadFile Double.path;
     EFetch (TimedCreate.createRequest accepting_runtime Double.proxyConfig "s1" None None);
     ESleep 30000;
     EFetch (GET "http://proxy/api/sandboxes/default/s1" []);
     EFetch (TimedCreate.pushRequest accepting_runtime Double.proxyConfig "s1" None)]
  /\ ~ Forall (fun ms => ms = 5000%Z)
       (delays (snd (run (RemoteSandbox.create_sandbox "s1" None None)
                         accepting_runtime tt))).
Proof.
  split; [vm_compute; reflexivity |].
  intros H. vm_compute in H. inversion H as [| ms rest Hms _]. discriminate Hms.
Qed.

(** C2.  In the polling loop of the bearer-credential server: (1) an
    attempt whose status request throws is a round like any other that did
    not see ready: the locals are untouched and the loop goes on with the
    rounds that remain; (2) the loop always completes normally, and it stops
    before the last round only on a snapshot that reports ready; (3) when
    every attempt throws, the loop runs all its rounds; (4) and
    [create_sandbox] then still answers with the success payload, built from
    the initial empty snapshot, after exactly 12 rounds: no attempt's error
    reaches the caller. *)
Theorem poll_tolerates_transport_errors :
  forall env config name,
    nullish config = false ->
    let statusUrl := PolledCreate.statusUrl config name in
    let req := PolledCreate.statusRequest config name in
    (forall n vars tr e,
        fetch env (tr ++ [ESleep 5000])%list req = Thrown e ->
        ApiKeyProxy.poll (S n) statusUrl config env vars tr
        = ApiKeyProxy.poll n statusUrl config env vars
            (tr ++ [ESleep 5000; EFetch req])%list)
    /\ (forall n tr,
           exists k vars,
             ApiKeyProxy.poll n statusUrl config env
                              (ApiKeyProxy.mkPollVars (VObj []) false) tr
             = (Returned tt, vars, (tr ++ rounds k 5000 req)%list)
             /\ (k <= n)%nat
             /\ ((k < n)%nat ->
                 ApiKeyProxy.ready vars = true /\ Poll.snapshot_ready vars))
    /\ ((forall tr, exists e, fetch env (tr ++ [ESleep 5000])%list req = Thrown e) ->
        (forall n vars tr,
            ApiKeyProxy.poll n statusUrl config env vars tr
            = (Returned tt, vars, (tr ++ rounds n 5000 req)%list))
        /\ (forall content image port createResponse createData,
               readFile env [] (configPath env) = Returned content ->
               JSON_parse env content = Returned config ->
               truthy (opt_field "proxyUrl" config) = true ->
               truthy (opt_field "apiKey" config) = true ->
               fetch env [EReadFile (configPath env)]
                     (PolledCreate.createRequest env config name image port)
               = Returned createResponse ->
               ok createResponse = true ->
               json createResponse = Returned createData ->
               run (ApiKeyProxy.create_sandbox name image port) env noPollVars
               = (Returned (created name (VStr "pending") (VObj [])),
                  ([EReadFile (configPath env);
                    EFetch (PolledCreate.createRequest env config name image port)]
                     ++ rounds 12 5000 req)%list))).
Proof.
  intros env config name Hn statusUrl req. split; [| split].
  - intros n vars tr e He.
    exact (poll_continues_on_error env config statusUrl Hn n vars tr e He).
  - intros n tr.
    destruct (poll_spec env config statusUrl Hn n
                (ApiKeyProxy.mkPollVars (VObj []) false) tr eq_refl (fun _ => eq_refl))
      as (k & vars & Hpoll & Hk & Hready & Hexhausted).
    exists k, vars. split; [exact Hpoll |]. split; [exact Hk |].
    intros Hlt. destruct (ApiKeyProxy.ready vars) eqn:Hr; [auto |].
    destruct (Hexhausted eq_refl) as [-> _]. lia.
  - intros Herr.
    pose proof (poll_all_errors env config statusUrl Hn) as Hall.
    split.
    + intros n vars tr. exact (Hall n Herr vars tr).
    + intros content image port createResponse createData
             Hfile Hparse Hp Hkey Hacc Hok Hbody.
      destruct (ApiKeyProxy_create_accepted env content config name image port
                  createResponse createData Hfile Hparse Hp Hkey Hacc Hok Hbody)
        as (k & vars & Hpoll & _ & _ & _ & Hrun).
      rewrite (Hall ApiKeyProxy.maxAttempts Herr) in Hpoll.
      injection Hpoll as Hvars Htr.
      rewrite Hrun, <- Hvars, <- Htr. cbn [ApiKeyProxy.sandboxData].
      unfold PolledCreate.answer. cbn [nullish fst snd]. rewrite app_nil_r. reflexivity.
Qed.

Lemma poll_tolerates_transport_errors_witness :
  run (ApiKeyProxy.create_sandbox "s1" None None) refusing_runtime noPollVars
  = (Returned (created "s1" (VStr "pending") (VObj [])),
     ([EReadFile Double.path;
       EFetch (PolledCreate.createRequest refusing_runtime Double.proxyConfig "s1" None None)]
        ++ rounds 12 5000 (PolledCreate.statusRequest Double.proxyConfig "s1"))%list).
Proof.
  destruct (poll_tolerates_transport_errors refusing_runtime Double.proxyConfig "s1" eq_refl)
    as (_ & _ & H).
  refine (proj2 (H _) "config" None None
                (mkResponse 201 (Returned (VObj [("name", VStr "s1")])))
                (VObj [("name", VStr "s1")])
                eq_refl eq_refl eq_refl eq_refl eq_refl eq_refl eq_refl).
  intros tr. exists (Error "connect ECONNREFUSED").
  destruct tr as [| [] [| e2 tr]]; reflexivity.
Defined.

(** ** Timing out *)

(** C3 on the code.  When the backend answers the status requests with the
    body [null], the loop stores [null] in [sandboxData] before the read of
    [.ready] throws inside the [try]; the attempts are exhausted and the
    read of [sandboxData.name] after the loop throws into the outer [catch]:
    [create_sandbox] answers with the failure shape and not with the
    pending snapshot. *)
Theorem null_snapshot_fails_create :
  run (ApiKeyProxy.create_sandbox "s1" None None) null_runtime noPollVars
  = (Returned (failure (Error "Cannot read properties of null (reading 'name')")),
     ([EReadFile Double.path;
       EFetch (PolledCreate.createRequest null_runtime Double.proxyConfig "s1" None None)]
        ++ rounds 12 5000 (PolledCreate.statusRequest Double.proxyConfig "s1")
        ++ [EConsoleError "Error creating sandbox 's1':"
              (Error "Cannot read properties of null (reading 'name')")])%list).
Proof. vm_compute. reflexivity. Qed.

(** Apart from a [null] snapshot, a poll that exhausts its attempts makes
    [create_sandbox] answer with the success payload of the last snapshot,
    whose [ready] is [false]. *)
Lemma timed_out_is_pending :
  forall env content config name image port createResponse createData,
    readFile env [] (configPath env) = Returned content ->
    JSON_parse env content = Returned config ->
    truthy (opt_field "proxyUrl" config) = true ->
    truthy (opt_field "apiKey" config) = true ->
    fetch env [EReadFile (configPath env)]
          (PolledCreate.createRequest env config name image port)
    = Returned createResponse ->
    ok createResponse = true ->
    json createResponse = Returned createData ->
    exists k vars,
      ApiKeyProxy.poll 12 (PolledCreate.statusUrl config name) config env
                       (ApiKeyProxy.mkPollVars (VObj []) false)
                       [EReadFile (configPath env);
                        EFetch (PolledCreate.createRequest env config name image port)]
      = (Returned tt, vars,
         ([EReadFile (configPath env);
           EFetch (PolledCreate.createRequest env config name image port)]
            ++ rounds k 5000 (PolledCreate.statusRequest config name))%list)
      /\ (ApiKeyProxy.ready vars = false ->
          nullish (ApiKeyProxy.sandboxData vars) = false ->
          let result := created name (VStr "pending") (ApiKeyProxy.sandboxData vars) in
          k = 12%nat
          /\ fst (run (ApiKeyProxy.create_sandbox name image port) env noPollVars)
             = Returned result
          /\ field "success" result = VBool true
          /\ field "ready" (field "sandbox" result) = VBool false).
Proof.
  intros env content config name image port createResponse createData
         Hfile Hparse Hp Hkey Hacc Hok Hbody.
  destruct (ApiKeyProxy_create_accepted env content config name image port
              createResponse createData Hfile Hparse Hp Hkey Hacc Hok Hbody)
    as (k & vars & Hpoll & _ & _ & Hexhausted & Hrun).
  exists k, vars. split; [exact Hpoll |].
  intros Hr Hsd result. destruct (Hexhausted Hr) as [-> Hpending].
  split; [reflexivity |]. split.
  - rewrite Hrun. unfold PolledCreate.answer. rewrite Hsd. reflexivity.
  - split; [reflexivity |].
    unfold result, created. cbn [field assoc String.eqb Ascii.eqb Bool.eqb].
    unfold js_or. rewrite (Hpending Hsd). reflexivity.
Qed.

(** ** Malformed and incomplete response bodies *)




(** ** The sandbox name *)

(** C9, as stated, fails on the code: [create_sandbox] called with the empty
    name sends the creation request, carrying the empty name, and reports
    success. *)
Lemma empty_name_is_sent :
  run (RemoteSandbox.create_sandbox "" None None) accepting_runtime tt
  = (Returned (VObj [("success", VBool true);
                     ("message", VStr "Sandbox '' created successfully");
                     ("sandbox", VObj [("name", VStr "s1");
                                       ("namespace", VStr "default");
                                       ("serviceFQDN", VStr "pending");
                                       ("ready", VBool true)])]),
     [EReadFile Double.path;
      EFetch (mkRequest "POST" "http://proxy/api/sandboxes" [content_type_json]
                (Some (Double.render
                         (VObj [("name", VStr ""); ("username", VStr "default");
                                ("image", VUndefined); ("port", VNum 8888);
                                ("namespace", VStr "default")]))));
      ESleep 30000;
      EFetch (GET "http://proxy/api/sandboxes/default/" []);
      EFetch (TimedCreate.pushRequest accepting_runtime Double.proxyConfig "" None)]).
Proof. vm_compute. reflexivity. Qed.

(** C9, as the code has it.  [create_sandbox] does not validate the name:
    for every name, the empty string included, once the configuration is
    loaded the first thing the two proxy servers do is send the creation
    request, which carries the name as given. *)
Theorem create_sends_any_name :
  forall env content config name image port,
    readFile env [] (configPath env) = Returned content ->
    JSON_parse env content = Returned config ->
    truthy (opt_field "proxyUrl" config) = true ->
    (exists rest,
        snd (run (RemoteSandbox.create_sandbox name image port) env tt)
        = EReadFile (configPath env)
            :: EFetch (TimedCreate.createRequest env config name image port) :: rest)
    /\ (truthy (opt_field "apiKey" config) = true ->
        exists rest,
          snd (run (ApiKeyProxy.create_sandbox name image port) env noPollVars)
          = EReadFile (configPath env)
              :: EFetch (PolledCreate.createRequest env config name image port) :: rest)
    /\ (exists payload,
           body (TimedCreate.createRequest env config name image port)
           = Some (JSON_stringify env (VObj (("name", VStr name) :: payload))))
    /\ (exists payload,
           body (PolledCreate.createRequest env config name image port)
           = Some (JSON_stringify env (VObj (("name", VStr name) :: payload)))).
Proof.
  intros env content config name image port Hfile Hparse Hp.
  pose proof (truthy_opt_field _ _ Hp) as Hn.
  split; [| split; [| split; eexists; reflexivity]].
  - unfold run, RemoteSandbox.create_sandbox.
    rewrite (try_bind_returned _ _ _ _ _ _ _ _ _
               (RemoteSandbox_loadConfig_ok env content config Hfile Hparse tt Hp)).
    unfold RemoteSandbox.throw_backend_error, get.
    unfold TimedCreate.createRequest, TimedCreate.username, TimedCreate.namespace,
      sandboxImage, sandboxPort.
    run_goal. rewrite Hn.
    destruct (truthy (opt_str image)); destruct (truthy (opt_num port));
      cbn beta iota; rewrite ?Hn; cbn beta iota;
      split_answers; eexists; reflexivity.
  - intros Hk.
    destruct (fetch env [EReadFile (configPath env)]
                    (PolledCreate.createRequest env config name image port))
      as [createResponse | e] eqn:Hfetch.
    + destruct (ok createResponse) eqn:Hok.
      * destruct (json createResponse) as [createData | e] eqn:Hbody.
        -- destruct (ApiKeyProxy_create_accepted env content config name
                       image port createResponse createData Hfile Hparse Hp Hk
                       Hfetch Hok Hbody) as (k & vars & _ & _ & _ & _ & Hrun).
           rewrite Hrun. eexists. reflexivity.
        -- revert Hfetch. unfold run, ApiKeyProxy.create_sandbox.
           rewrite (try_bind_returned _ _ _ _ _ _ _ _ _
                      (ApiKeyProxy_loadConfig_ok env content config Hfile Hparse
                                                 noPollVars Hp Hk)).
           unfold ApiKeyProxy.throw_backend_error, ApiKeyProxy.authorization,
             ApiKeyProxy.report, get.
           unfold PolledCreate.createRequest, PolledCreate.bearer, sandboxImage, sandboxPort.
           run_goal. rewrite Hn.
           destruct (truthy (opt_str image)); destruct (truthy (opt_num port));
             intros Hfetch; cbn beta iota; rewrite ?Hn; cbn beta iota;
             rewrite Hfetch, Hok, Hbody; eexists; reflexivity.
      * revert Hfetch. unfold run, ApiKeyProxy.create_sandbox.
        rewrite (try_bind_returned _ _ _ _ _ _ _ _ _
                   (ApiKeyProxy_loadConfig_ok env content config Hfile Hparse
                                              noPollVars Hp Hk)).
        unfold ApiKeyProxy.throw_backend_error, ApiKeyProxy.authorization,
          ApiKeyProxy.report, get.
        unfold PolledCreate.createRequest, PolledCreate.bearer, sandboxImage, sandboxPort.
        run_goal. rewrite Hn.
        destruct (truthy (opt_str image)); destruct (truthy (opt_num port));
          intros Hfetch; cbn beta iota; rewrite ?Hn; cbn beta iota;
          rewrite Hfetch, Hok; cbn [negb];
          split_answers; eexists; reflexivity.
    + revert Hfetch. unfold run, ApiKeyProxy.create_sandbox.
      rewrite (try_bind_returned _ _ _ _ _ _ _ _ _
                 (ApiKeyProxy_loadConfig_ok env content config Hfile Hparse
                                            noPollVars Hp Hk)).
      unfold ApiKeyProxy.throw_backend_error, ApiKeyProxy.authorization,
        ApiKeyProxy.report, get.
      unfold PolledCreate.createRequest, PolledCreate.bearer, sandboxImage, sandboxPort.
      run_goal. rewrite Hn.
      destruct (truthy (opt_str image)); destruct (truthy (opt_num port));
        intros Hfetch; cbn beta iota; rewrite ?Hn; cbn beta iota;
        rewrite Hfetch; eexists; reflexivity.
Qed.

Lemma create_sends_any_name_witness :
  exists rest,
    snd (run (RemoteSandbox.create_sandbox "" None None) accepting_runtime tt)
    = EReadFile Double.path
        :: EFetch (TimedCreate.createRequest accepting_runtime Double.proxyConfig
                     "" None None) :: rest.
Proof.
  exact (proj1 (create_sends_any_name accepting_runtime "config" Double.proxyConfig
                  "" None None eq_refl eq_refl eq_refl)).
Defined.

(** ** The command line handed to the shell *)





(** * Further properties *)

(** ** The outward contract *)

Lemma caught_handler_returns {L A} (m : M L A) (h : JsError -> M L A) :
  (forall e env l tr, exists r l' tr', h e env l tr = (Returned r, l', tr')) ->
  forall env l tr, exists r l' tr', try_catch m h env l tr = (Returned r, l', tr').
Proof.
  intros Hh env l tr. unfold try_catch.
  destruct (m env l tr) as [[[r | e] l'] tr']; [eauto | apply Hh].
Qed.

Lemma run_returns {L A} (m : M L A) env l0 :
  (exists r l' tr', m env l0 [] = (Returned r, l', tr')) ->
  exists r, fst (run m env l0) = Returned r.
Proof. intros (r & l' & tr' & H). exists r. unfold run. rewrite H. reflexivity. Qed.

(** X1.  No tool call of any of the three servers rejects: whatever the
    runtime does, every registered handler resolves with a result. *)
Theorem handlers_never_throw :
  forall env call,
    (exists r, fst (run (RemoteSandbox_tool call) env tt) = Returned r)
    /\ (exists r, fst (run (ApiKeyProxy_tool call) env noPollVars) = Returned r)
    /\ (forall handler, Kubectl_tool call = Some handler ->
                        exists r, fst (run handler env noPodVars) = Returned r).
Proof.
  intros env call. split; [| split].
  - apply run_returns.
    destruct call; cbn [RemoteSandbox_tool];
      unfold RemoteSandbox.get_sandbox_status, RemoteSandbox.delete_sandbox,
        RemoteSandbox.pause_sandbox, RemoteSandbox.resume_sandbox;
      apply caught_handler_returns; intros; eexists; eexists; eexists; reflexivity.
  - apply run_returns.
    destruct call; cbn [ApiKeyProxy_tool];
      unfold ApiKeyProxy.get_sandbox_status, ApiKeyProxy.delete_sandbox,
        ApiKeyProxy.pause_sandbox, ApiKeyProxy.resume_sandbox;
      apply caught_handler_returns; intros; eexists; eexists; eexists; reflexivity.
  - intros handler H. apply run_returns.
    destruct call; cbn [Kubectl_tool] in H; inversion H; subst;
      apply caught_handler_returns; intros; eexists; eexists; eexists; reflexivity.
Qed.

Lemma handlers_never_throw_witness :
  exists r, fst (run (Kubectl.delete_sandbox "s1") shell_runtime noPodVars) = Returned r.
Proof.
  exact (proj2 (proj2 (handlers_never_throw shell_runtime (DeleteSandbox "s1"))) _ eq_refl).
Defined.


Lemma append_empty_r (s : string) : s ++ "" = s.
Proof. induction s as [| c s IH]; [reflexivity |]. cbn [append]. rewrite IH. reflexivity. Qed.

(** ** The credential *)

Lemma requests_app tr1 tr2 : requests (tr1 ++ tr2)%list = (requests tr1 ++ requests tr2)%list.
Proof.
  induction tr1 as [| ev tr1 IH]; [reflexivity |].
  destruct ev; cbn [app requests]; rewrite ?IH; reflexivity.
Qed.

Lemma requests_rounds k delay r req : In req (requests (rounds k delay r)) -> req = r.
Proof.
  induction k as [| k IH]; cbn [rounds requests In]; [tauto |].
  intros [<- | H]; auto.
Qed.

Section Requests.
Variable env : Env.
Variables (content : string) (config : value).
Hypothesis file : readFile env [] (configPath env) = Returned content.
Hypothesis parsed : JSON_parse env content = Returned config.
Hypothesis proxy : truthy (opt_field "proxyUrl" config) = true.

(** The requests of [create_sandbox] in src/remote-sandbox.ts. *)
Lemma RemoteSandbox_create_requests name image port req :
  In req (requests (snd (run (RemoteSandbox.create_sandbox name image port) env tt))) ->
  req = TimedCreate.createRequest env config name image port
  \/ req = TimedCreate.statusRequest config name
  \/ req = TimedCreate.pushRequest env config name port.
Proof.
  pose proof (truthy_opt_field _ _ proxy) as Hn.
  unfold run, RemoteSandbox.create_sandbox.
  rewrite (try_bind_returned _ _ _ _ _ _ _ _ _
             (RemoteSandbox_loadConfig_ok env content config file parsed tt proxy)).
  unfold RemoteSandbox.throw_backend_error, get.
  unfold TimedCreate.createRequest, TimedCreate.statusRequest, TimedCreate.pushRequest,
    TimedCreate.username, TimedCreate.namespace, sandboxImage, sandboxPort, GET.
  run_goal. rewrite Hn.
  destruct (truthy (opt_str image)); destruct (truthy (opt_num port));
    cbn beta iota; rewrite ?Hn; cbn beta iota;
    split_answers; cbn [snd requests In]; intuition (subst; auto).
Qed.

(** The single request of the other tools of src/remote-sandbox.ts. *)
Lemma RemoteSandbox_single_request call req :
  Address.remote env config call = Some req ->
  requests (snd (run (RemoteSandbox_tool call) env tt)) = [req].
Proof.
  pose proof (truthy_opt_field _ _ proxy) as Hn.
  pose proof proxy as Hp'. rewrite (opt_field_defined _ _ Hn) in Hp'.
  intros Hreq.
  destruct call; cbn [Address.remote] in Hreq; inversion Hreq; subst; clear Hreq;
    cbn [RemoteSandbox_tool];
    unfold run, RemoteSandbox.get_sandbox_status, RemoteSandbox.delete_sandbox,
      RemoteSandbox.pause_sandbox, RemoteSandbox.resume_sandbox,
      RemoteSandbox.send_prompt_to_sandbox, RemoteSandbox.list_sandboxes,
      RemoteSandbox.forward;
    rewrite (try_bind_returned _ _ _ _ _ _ _ _ _
               (RemoteSandbox_loadConfig_ok env content config file parsed tt proxy));
    unfold RemoteSandbox.namespaced_request, RemoteSandbox.throw_backend_error,
      RemoteSandbox.exec_result, TimedCreate.username, TimedCreate.namespace, get, GET;
    run_goal; rewrite Hn; cbn beta iota; rewrite ?Hp'; cbn [negb];
    split_answers; reflexivity.
Qed.

Hypothesis key : truthy (opt_field "apiKey" config) = true.

(** The single request of the tools of src/unnamed/part_002 other than
    [create_sandbox]. *)
Lemma ApiKeyProxy_single_request call req :
  Address.bearer env config call = Some req ->
  requests (snd (run (ApiKeyProxy_tool call) env noPollVars)) = [req].
Proof.
  pose proof (truthy_opt_field _ _ proxy) as Hn.
  pose proof proxy as Hp'. rewrite (opt_field_defined _ _ Hn) in Hp'.
  intros Hreq.
  destruct call; cbn [Address.bearer] in Hreq; inversion Hreq; subst; clear Hreq;
    cbn [ApiKeyProxy_tool];
    unfold run, ApiKeyProxy.get_sandbox_status, ApiKeyProxy.delete_sandbox,
      ApiKeyProxy.pause_sandbox, ApiKeyProxy.resume_sandbox,
      ApiKeyProxy.send_prompt_to_sandbox, ApiKeyProxy.list_sandboxes,
      ApiKeyProxy.forward;
    rewrite (try_bind_returned _ _ _ _ _ _ _ _ _
               (ApiKeyProxy_loadConfig_ok env content config file parsed noPollVars proxy key));
    unfold ApiKeyProxy.sandbox_request, ApiKeyProxy.authorization,
      ApiKeyProxy.throw_backend_error, ApiKeyProxy.report,
      RemoteSandbox.exec_result, PolledCreate.bearer, get, GET;
    run_goal; rewrite Hn; cbn beta iota; rewrite ?Hp'; cbn [negb];
    rewrite ?append_empty_r;
    split_answers; reflexivity.
Qed.

(** The trace of [create_sandbox] in src/unnamed/part_002, whatever the
    backend answers. *)
Lemma ApiKeyProxy_create_trace name image port :
  exists k tail,
    snd (run (ApiKeyProxy.create_sandbox name image port) env noPollVars)
    = ([EReadFile (configPath env);
        EFetch (PolledCreate.createRequest env config name image port)]
         ++ rounds k 5000 (PolledCreate.statusRequest config name) ++ tail)%list
    /\ requests tail = [].
Proof.
  pose proof (truthy_opt_field _ _ proxy) as Hn.
  destruct (fetch env [EReadFile (configPath env)]
                  (PolledCreate.createRequest env config name image port))
    as [createResponse | e] eqn:Hfetch.
  - destruct (ok createResponse) eqn:Hok;
      [destruct (json createResponse) as [createData | e] eqn:Hbody |].
    + destruct (ApiKeyProxy_create_accepted env content config name image port
                  createResponse createData file parsed proxy key Hfetch Hok Hbody)
        as (k & vars & _ & _ & _ & _ & Hrun).
      exists k. eexists. rewrite Hrun. split; [reflexivity |].
      apply (answer_is_quiet name (ApiKeyProxy.sandboxData vars)).
    + exists 0%nat. revert Hfetch. unfold run, ApiKeyProxy.create_sandbox.
      rewrite (try_bind_returned _ _ _ _ _ _ _ _ _
                 (ApiKeyProxy_loadConfig_ok env content config file parsed
                                            noPollVars proxy key)).
      unfold ApiKeyProxy.throw_backend_error, ApiKeyProxy.authorization,
        ApiKeyProxy.report, get.
      unfold PolledCreate.createRequest, PolledCreate.bearer, sandboxImage, sandboxPort.
      run_goal. rewrite Hn.
      destruct (truthy (opt_str image)); destruct (truthy (opt_num port));
        intros Hfetch; cbn beta iota; rewrite ?Hn; cbn beta iota;
        rewrite Hfetch, Hok, Hbody; eexists; split; reflexivity.
    + exists 0%nat. revert Hfetch. unfold run, ApiKeyProxy.create_sandbox.
      rewrite (try_bind_returned _ _ _ _ _ _ _ _ _
                 (ApiKeyProxy_loadConfig_ok env content config file parsed
                                            noPollVars proxy key)).
      unfold ApiKeyProxy.throw_backend_error, ApiKeyProxy.authorization,
        ApiKeyProxy.report, get.
      unfold PolledCreate.createRequest, PolledCreate.bearer, sandboxImage, sandboxPort.
      run_goal. rewrite Hn.
      destruct (truthy (opt_str image)); destruct (truthy (opt_num port));
        intros Hfetch; cbn beta iota; rewrite ?Hn; cbn beta iota;
        rewrite Hfetch, Hok; cbn [negb];
        split_answers; eexists; split; reflexivity.
  - exists 0%nat. revert Hfetch. unfold run, ApiKeyProxy.create_sandbox.
    rewrite (try_bind_returned _ _ _ _ _ _ _ _ _
               (ApiKeyProxy_loadConfig_ok env content config file parsed
                                          noPollVars proxy key)).
    unfold ApiKeyProxy.throw_backend_error, ApiKeyProxy.authorization,
      ApiKeyProxy.report, get.
    unfold PolledCreate.createRequest, PolledCreate.bearer, sandboxImage, sandboxPort.
    run_goal. rewrite Hn.
    destruct (truthy (opt_str image)); destruct (truthy (opt_num port));
      intros Hfetch; cbn beta iota; rewrite ?Hn; cbn beta iota;
      rewrite Hfetch; eexists; split; reflexivity.
Qed.
End Requests.

Lemma Address_remote_headers env config call req h :
  Address.remote env config call = Some req -> In h (headers req) -> h = content_type_json.
Proof.
  destruct call; cbn [Address.remote]; intros Hreq; inversion Hreq; subst;
    unfold GET; cbn [headers In]; intuition (subst; auto).
Qed.

Lemma Address_bearer_headers env config call req :
  Address.bearer env config call = Some req -> In (PolledCreate.bearer config) (headers req).
Proof.
  destruct call; cbn [Address.bearer]; intros Hreq; inversion Hreq; subst;
    unfold GET; cbn [headers In]; intuition (subst; auto).
Qed.


(** ** One request per call *)


(** X2.  In both proxy servers every tool other than [create_sandbox], once
    the configuration is loaded, sends exactly one request, the one its
    addressing gives, whatever the backend answers: there is no retry and no
    second round trip. *)
Theorem one_request_whatever_the_answer :
  forall env content config call,
    readFile env [] (configPath env) = Returned content ->
    JSON_parse env content = Returned config ->
    truthy (opt_field "proxyUrl" config) = true ->
    (forall req,
        Address.remote env config call = Some req ->
        requests (snd (run (RemoteSandbox_tool call) env tt)) = [req])
    /\ (truthy (opt_field "apiKey" config) = true ->
        forall req,
          Address.bearer env config call = Some req ->
          requests (snd (run (ApiKeyProxy_tool call) env noPollVars)) = [req]).
Proof.
  intros env content config call Hfile Hparse Hp. split.
  - intros req. apply (RemoteSandbox_single_request env content config Hfile Hparse Hp).
  - intros Hk req.
    apply (ApiKeyProxy_single_request env content config Hfile Hparse Hp Hk).
Qed.

Lemma one_request_whatever_the_answer_witness :
  requests (snd (run (RemoteSandbox_tool (PauseSandbox "s1")) ghost_runtime tt))
  = [mkRequest "POST" "http://proxy/api/sandboxes/default/s1/pause?namespace=default" [] None]
  /\ requests (snd (run (ApiKeyProxy_tool (GetSandboxStatus "s1")) failing_runtime noPollVars))
     = [GET "http://proxy/api/sandboxes/s1" [("Authorization", "Bearer sk_live_1")]].
Proof.
  destruct (one_request_whatever_the_answer ghost_runtime "config" Double.proxyConfig
              (PauseSandbox "s1") eq_refl eq_refl eq_refl) as [H1 _].
  destruct (one_request_whatever_the_answer failing_runtime "config" Double.proxyConfig
              (GetSandboxStatus "s1") eq_refl eq_refl eq_refl) as [_ H2].
  split; [exact (H1 _ eq_refl) | exact (H2 eq_refl _ eq_refl)].
Defined.


Lemma Some_eq {A} (a b : A) : Some a = Some b -> a = b.
Proof. intros H. injection H as H. exact H. Qed.

(** X3.  In both proxy servers the status, list, delete, pause and resume
    tools answer a 2xx response with the backend's parsed body itself,
    unchanged and unsorted (an empty list included), after that single
    request. *)
Theorem success_body_is_relayed :
  forall env content config call response data,
    relays call = true ->
    readFile env [] (configPath env) = Returned content ->
    JSON_parse env content = Returned config ->
    truthy (opt_field "proxyUrl" config) = true ->
    ok response = true ->
    json response = Returned data ->
    (forall req,
        Address.remote env config call = Some req ->
        fetch env [EReadFile (configPath env)] req = Returned response ->
        run (RemoteSandbox_tool call) env tt
        = (Returned data, [EReadFile (configPath env); EFetch req]))
    /\ (truthy (opt_field "apiKey" config) = true ->
        forall req,
          Address.bearer env config call = Some req ->
          fetch env [EReadFile (configPath env)] req = Returned response ->
          run (ApiKeyProxy_tool call) env noPollVars
          = (Returned data, [EReadFile (configPath env); EFetch req])).
Proof.
  intros env content config call response data Hrel Hfile Hparse Hp Hok Hjson.
  pose proof (truthy_opt_field _ _ Hp) as Hn.
  split.
  - intros req Hreq. revert Hrel.
    destruct call; cbn [relays]; try discriminate; intros _;
      apply Some_eq in Hreq; subst req;
      cbn [RemoteSandbox_tool];
      unfold run, RemoteSandbox.get_sandbox_status, RemoteSandbox.delete_sandbox,
        RemoteSandbox.pause_sandbox, RemoteSandbox.resume_sandbox,
        RemoteSandbox.list_sandboxes, RemoteSandbox.forward;
      rewrite (try_bind_returned _ _ _ _ _ _ _ _ _
                 (RemoteSandbox_loadConfig_ok env content config Hfile Hparse tt Hp));
      unfold RemoteSandbox.namespaced_request, RemoteSandbox.throw_backend_error,
        TimedCreate.username, TimedCreate.namespace, get, GET;
      run_goal; rewrite Hn; cbn beta iota; cbn [append];
      intros Hnet; rewrite Hnet, Hok, Hjson; reflexivity.
  - intros Hk req Hreq. revert Hrel.
    destruct call; cbn [relays]; try discriminate; intros _;
      apply Some_eq in Hreq; subst req;
      cbn [ApiKeyProxy_tool];
      unfold run, ApiKeyProxy.get_sandbox_status, ApiKeyProxy.delete_sandbox,
        ApiKeyProxy.pause_sandbox, ApiKeyProxy.resume_sandbox,
        ApiKeyProxy.list_sandboxes, ApiKeyProxy.forward;
      rewrite (try_bind_returned _ _ _ _ _ _ _ _ _
                 (ApiKeyProxy_loadConfig_ok env content config Hfile Hparse noPollVars Hp Hk));
      unfold ApiKeyProxy.sandbox_request, ApiKeyProxy.authorization,
        ApiKeyProxy.throw_backend_error, ApiKeyProxy.report, PolledCreate.bearer, get, GET;
      run_goal; rewrite Hn; cbn beta iota; rewrite ?append_empty_r; cbn [append];
      intros Hnet; rewrite Hnet, Hok, Hjson; reflexivity.
Qed.

Lemma success_body_is_relayed_witness :
  run (RemoteSandbox_tool ListSandboxes) empty_list_runtime tt
  = (Returned (VArr []),
     [EReadFile Double.path; EFetch (GET "http://proxy/api/sandboxes" [])]).
Proof.
  destruct (success_body_is_relayed empty_list_runtime "config" Double.proxyConfig
              ListSandboxes (mkResponse 200 (Returned (VArr []))) (VArr [])
              eq_refl eq_refl eq_refl eq_refl eq_refl eq_refl) as [H _].
  exact (H _ eq_refl eq_refl).
Defined.


(** ** Backend errors *)





(** X6.  A creation the backend refuses ends [create_sandbox] at once: in
    both proxy servers a non-2xx answer to the creation request whose body
    parses fails the call, and neither a delay nor a status request
    follows.  The error is [Failed to create sandbox: <detail>], the detail
    being the body's [error] field or else its [message] field; for the
    body [null] it is the [TypeError] of reading [error] of [null]. *)
Theorem refused_creation_does_not_wait :
  forall env content config name image port createResponse errorData,
    readFile env [] (configPath env) = Returned content ->
    JSON_parse env content = Returned config ->
    truthy (opt_field "proxyUrl" config) = true ->
    ok createResponse = false ->
    json createResponse = Returned errorData ->
    let detail := js_or (field "error" errorData) (field "message" errorData) in
    let refused :=
      if nullish errorData
      then TypeError_read errorData "error"
      else Error ("Failed to create sandbox: " ++ to_string detail) in
    (fetch env [EReadFile (configPath env)]
           (TimedCreate.createRequest env config name image port)
     = Returned createResponse ->
     run (RemoteSandbox.create_sandbox name image port) env tt
     = (Returned (failure refused),
        [EReadFile (configPath env);
         EFetch (TimedCreate.createRequest env config name image port)]))
    /\ (truthy (opt_field "apiKey" config) = true ->
        fetch env [EReadFile (configPath env)]
              (PolledCreate.createRequest env config name image port)
        = Returned createResponse ->
        run (ApiKeyProxy.create_sandbox name image port) env noPollVars
        = (Returned (failure refused),
           [EReadFile (configPath env);
            EFetch (PolledCreate.createRequest env config name image port);
            EConsoleError (PolledCreate.label name) refused]))
    /\ (errorData = VNull ->
        refused = Error "Cannot read properties of null (reading 'error')").
Proof.
  intros env content config name image port createResponse errorData
         Hfile Hparse Hp Hok Hjson detail refused.
  pose proof (truthy_opt_field _ _ Hp) as Hn.
  split; [| split].
  - unfold run, RemoteSandbox.create_sandbox.
    rewrite (try_bind_returned _ _ _ _ _ _ _ _ _
               (RemoteSandbox_loadConfig_ok env content config Hfile Hparse tt Hp)).
    unfold RemoteSandbox.throw_backend_error, get.
    unfold TimedCreate.createRequest, TimedCreate.username, TimedCreate.namespace,
      sandboxImage, sandboxPort.
    run_goal. rewrite Hn.
    destruct (truthy (opt_str image)); destruct (truthy (opt_num port));
      intros Hnet; cbn beta iota; rewrite ?Hn; cbn beta iota;
      rewrite Hnet, Hok, Hjson; cbn [negb];
      unfold refused, detail, js_or;
      (destruct (nullish errorData); [reflexivity |]);
      destruct (truthy (field "error" errorData)); reflexivity.
  - intros Hk. unfold run, ApiKeyProxy.create_sandbox.
    rewrite (try_bind_returned _ _ _ _ _ _ _ _ _
               (ApiKeyProxy_loadConfig_ok env content config Hfile Hparse noPollVars Hp Hk)).
    unfold ApiKeyProxy.throw_backend_error, ApiKeyProxy.authorization, ApiKeyProxy.report, get.
    unfold PolledCreate.createRequest, PolledCreate.bearer, PolledCreate.label,
      sandboxImage, sandboxPort.
    run_goal. rewrite Hn.
    destruct (truthy (opt_str image)); destruct (truthy (opt_num port));
      intros Hnet; cbn beta iota; rewrite ?Hn; cbn beta iota;
      rewrite Hnet, Hok, Hjson; cbn [negb];
      unfold refused, detail, js_or;
      (destruct (nullish errorData); [reflexivity |]);
      destruct (truthy (field "error" errorData)); reflexivity.
  - intros ->. reflexivity.
Qed.

Lemma refused_creation_does_not_wait_witness :
  run (RemoteSandbox.create_sandbox "s1" None None) failing_runtime tt
  = (Returned (failure (Error "Failed to create sandbox: boom")),
     [EReadFile Double.path;
      EFetch (TimedCreate.createRequest failing_runtime Double.proxyConfig "s1" None None)]).
Proof.
  exact (proj1 (refused_creation_does_not_wait failing_runtime "config" Double.proxyConfig
                  "s1" None None
                  (mkResponse 500 (Returned (VObj [("error", VStr "boom")])))
                  (VObj [("error", VStr "boom")])
                  eq_refl eq_refl eq_refl eq_refl eq_refl) eq_refl).
Defined.


(** ** Rounds of the readiness poll *)

Section PollRounds.
Import ApiKeyProxy Poll.

Variable env : Env.
Variables (config : value) (statusUrl : string).
Hypothesis config_loaded : nullish config = false.

Let req := statusRequest config statusUrl.

Lemma not_ready_observed answer vars :
  not_ready answer ->
  fst (observed answer vars) = false
  /\ ready (snd (observed answer vars)) = ready vars.
Proof.
  unfold not_ready, observed. destruct answer as [response | e]; [| auto].
  destruct (ok response); [| auto]. intros H.
  destruct (json response) as [data | e]; [| auto].
  destruct (nullish data) eqn:Hn; [auto |].
  rewrite (H eq_refl data eq_refl Hn). auto.
Qed.

(** Rounds whose answers do not show the sandbox ready are spent one by
    one, and leave the flag [ready] as it was. *)
Lemma poll_not_ready_rounds j :
  forall n vars tr,
    (forall i, (i < j)%nat ->
               not_ready (fetch env (tr ++ rounds i pollDelay req ++ [ESleep pollDelay])%list
                                req)) ->
    exists vars',
      poll (j + n) statusUrl config env vars tr
      = poll n statusUrl config env vars' (tr ++ rounds j pollDelay req)%list
      /\ ready vars' = ready vars.
Proof.
  induction j as [| j IH]; intros n vars tr Hnr.
  - exists vars. cbn [rounds Nat.add]. rewrite app_nil_r. auto.
  - pose proof (Hnr 0%nat ltac:(lia)) as H0. cbn [rounds app] in H0.
    destruct (not_ready_observed _ vars H0) as [Hb Hr].
    change (S j + n)%nat with (S (j + n)). rewrite (poll_step env config statusUrl config_loaded).
    cbv zeta. fold req. rewrite Hb.
    destruct (IH n (snd (observed (fetch env (tr ++ [ESleep pollDelay])%list req) vars))
                 ((tr ++ [ESleep pollDelay]) ++ [EFetch req])%list) as (vars' & Hp & Hr').
    + intros i Hi. pose proof (Hnr (S i) ltac:(lia)) as H.
      cbn [rounds] in H. rewrite <- !app_assoc. cbn [app]. exact H.
    + exists vars'. rewrite Hp. rewrite <- !app_assoc. cbn [app rounds].
      split; [reflexivity | congruence].
Qed.

(** The round that sees a ready snapshot is the last one. *)
Lemma poll_ready_round n vars tr response data :
  fetch env (tr ++ [ESleep pollDelay])%list req = Returned response ->
  ok response = true ->
  json response = Returned data ->
  nullish data = false ->
  truthy (field "ready" data) = true ->
  poll (S n) statusUrl config env vars tr
  = (Returned tt, mkPollVars data true, (tr ++ rounds 1 pollDelay req)%list).
Proof.
  intros Hf Hok Hj Hn Hr. rewrite (poll_step env config statusUrl config_loaded).
  cbv zeta. fold req. rewrite Hf. unfold observed. rewrite Hok, Hj, Hn, Hr.
  cbn [fst snd rounds]. rewrite <- app_assoc. reflexivity.
Qed.
End PollRounds.

Lemma rounds_snoc j delay r :
  (rounds j delay r ++ rounds 1 delay r)%list = rounds (S j) delay r.
Proof.
  induction j as [| j IH]; [reflexivity |].
  change (rounds (S j) delay r) with (ESleep delay :: EFetch r :: rounds j delay r) at 1.
  cbn [app]. rewrite IH. reflexivity.
Qed.

(** X7.  The poll of the bearer-credential server stops at the first ready
    snapshot: when the first [j] status answers do not show the sandbox
    ready, for whatever reason, and the next one, within the 12 attempts,
    is a 2xx snapshot whose [ready] is truthy, [create_sandbox] answers
    with that snapshot after exactly [j + 1] rounds, having waited
    [5000 * (j + 1)] ms; earlier snapshots leave no mark on the answer. *)
Theorem create_returns_at_first_ready_snapshot :
  forall env content config name image port createResponse createData j response data,
    readFile env [] (configPath env) = Returned content ->
    JSON_parse env content = Returned config ->
    truthy (opt_field "proxyUrl" config) = true ->
    truthy (opt_field "apiKey" config) = true ->
    let start := [EReadFile (configPath env);
                  EFetch (PolledCreate.createRequest env config name image port)] in
    let req := PolledCreate.statusRequest config name in
    fetch env [EReadFile (configPath env)]
          (PolledCreate.createRequest env config name image port)
    = Returned createResponse ->
    ok createResponse = true ->
    json createResponse = Returned createData ->
    (j < 12)%nat ->
    (forall i, (i < j)%nat ->
               not_ready (fetch env (start ++ rounds i 5000 req ++ [ESleep 5000])%list req)) ->
    fetch env (start ++ rounds j 5000 req ++ [ESleep 5000])%list req = Returned response ->
    ok response = true ->
    json response = Returned data ->
    nullish data = false ->
    truthy (field "ready" data) = true ->
    run (ApiKeyProxy.create_sandbox name image port) env noPollVars
    = (Returned (created name (VStr "pending") data),
       (start ++ rounds (S j) 5000 req)%list)
    /\ slept (snd (run (ApiKeyProxy.create_sandbox name image port) env noPollVars))
       = (5000 * (Z.of_nat j + 1))%Z.
Proof.
  intros env content config name image port createResponse createData j response data
         Hfile Hparse Hp Hkey start req Hacc Hok Hbody Hj Hnr Hf Hrok Hrj Hnd Hready.
  pose proof (truthy_opt_field _ _ Hp) as Hn.
  destruct (ApiKeyProxy_create_accepted env content config name image port
              createResponse createData Hfile Hparse Hp Hkey Hacc Hok Hbody)
    as (k & vars & Hpoll & _ & _ & _ & Hrun).
  fold start in Hpoll, Hrun. fold req in Hpoll, Hrun.
  assert (Hloop : ApiKeyProxy.poll 12 (PolledCreate.statusUrl config name) config env
                    (ApiKeyProxy.mkPollVars (VObj []) false) start
                  = (Returned tt, ApiKeyProxy.mkPollVars data true,
                     (start ++ rounds (S j) 5000 req)%list)).
  { replace 12%nat with (j + S (11 - j))%nat by lia.
    destruct (poll_not_ready_rounds env config (PolledCreate.statusUrl config name) Hn j
                (S (11 - j)) (ApiKeyProxy.mkPollVars (VObj []) false) start Hnr)
      as (vars' & -> & _).
    rewrite (poll_ready_round env config (PolledCreate.statusUrl config name) Hn
               (11 - j) vars' _ response data); auto.
    rewrite <- app_assoc. f_equal. f_equal. apply rounds_snoc. }
  change ApiKeyProxy.maxAttempts with 12%nat in Hpoll.
  rewrite Hloop in Hpoll. injection Hpoll as Hvars Htr.
  assert (Hrun' : run (ApiKeyProxy.create_sandbox name image port) env noPollVars
                  = (Returned (created name (VStr "pending") data),
                     (start ++ rounds (S j) 5000 req)%list)).
  { rewrite Hrun, <- Hvars, <- Htr. cbn [ApiKeyProxy.sandboxData].
    unfold PolledCreate.answer. rewrite Hnd. cbn [fst snd]. rewrite app_nil_r. reflexivity. }
  split; [exact Hrun' |].
  rewrite Hrun'. cbn [snd]. unfold start. cbn [app slept].
  change (ESleep 5000 :: EFetch req :: rounds j 5000 req) with (rounds (S j) 5000 req).
  rewrite slept_rounds. lia.
Qed.

Lemma create_returns_at_first_ready_snapshot_witness :
  run (ApiKeyProxy.create_sandbox "s1" None None) slow_runtime noPollVars
  = (Returned (created "s1" (VStr "pending") (VObj [("name", VStr "s1"); ("ready", VBool true)])),
     ([EReadFile Double.path;
       EFetch (PolledCreate.createRequest slow_runtime Double.proxyConfig "s1" None None)]
        ++ rounds 3 5000 (PolledCreate.statusRequest Double.proxyConfig "s1"))%list).
Proof.
  refine (proj1 (create_returns_at_first_ready_snapshot slow_runtime "config"
                   Double.proxyConfig "s1" None None
                   (mkResponse 201 (Returned (VObj [("name", VStr "s1")])))
                   (VObj [("name", VStr "s1")]) 2
                   (mkResponse 200 (Returned (VObj [("name", VStr "s1"); ("ready", VBool true)])))
                   (VObj [("name", VStr "s1"); ("ready", VBool true)])
                   eq_refl eq_refl eq_refl eq_refl eq_refl eq_refl eq_refl
                   ltac:(lia) _ eq_refl eq_refl eq_refl eq_refl eq_refl)).
  intros i Hi. destruct i as [| [| i]]; [intros H; discriminate H .. | lia].
Defined.

Section PollSnapshots.
Import ApiKeyProxy Poll.

Variable env : Env.
Variables (config : value) (statusUrl : string).
Hypothesis config_loaded : nullish config = false.

Let req := statusRequest config statusUrl.

(** The answers to the first [j] status requests of a poll that starts
    after the effects [tr]. *)
Let answers (tr : Trace) (j : nat) : list (Outcome Response) :=
  map (fun i => fetch env (tr ++ rounds i pollDelay req ++ [ESleep pollDelay])%list req)
      (seq 0 j).

Lemma not_ready_stored answer vars :
  not_ready answer ->
  snd (observed answer vars) = mkPollVars (stored (sandboxData vars) answer) (ready vars).
Proof.
  unfold not_ready, observed, stored. destruct vars as [sd r]. cbn [sandboxData ready].
  destruct answer as [response | e]; [| reflexivity].
  destruct (ok response); [| reflexivity]. intros H.
  destruct (json response) as [data | e]; [| reflexivity].
  destruct (nullish data) eqn:Hn; [reflexivity |].
  rewrite (H eq_refl data eq_refl Hn). reflexivity.
Qed.

(** Rounds whose answers do not show the sandbox ready leave in
    [sandboxData] the last body that a 2xx answer delivered. *)
Lemma poll_not_ready_snapshot j :
  forall n vars tr,
    (forall i, (i < j)%nat ->
               not_ready (fetch env (tr ++ rounds i pollDelay req ++ [ESleep pollDelay])%list
                                req)) ->
    poll (j + n) statusUrl config env vars tr
    = poll n statusUrl config env
           (mkPollVars (fold_left stored (answers tr j) (sandboxData vars)) (ready vars))
           (tr ++ rounds j pollDelay req)%list.
Proof.
  induction j as [| j IH]; intros n vars tr Hnr.
  - destruct vars as [sd r]. cbn [rounds Nat.add]. rewrite app_nil_r. reflexivity.
  - pose proof (Hnr 0%nat ltac:(lia)) as H0. cbn [rounds app] in H0.
    destruct (not_ready_observed _ vars H0) as [Hb _].
    pose proof (not_ready_stored _ vars H0) as Hs.
    change (S j + n)%nat with (S (j + n)). rewrite (poll_step env config statusUrl config_loaded).
    cbv zeta. fold req. rewrite Hb, Hs.
    rewrite IH.
    + cbn [sandboxData ready]. unfold answers. cbn [seq map fold_left].
      rewrite <- (seq_shift j 0), map_map. rewrite <- !app_assoc. cbn [app rounds].
      rewrite (map_ext
                 (fun i => fetch env ((tr ++ [ESleep pollDelay; EFetch req])
                                        ++ rounds i pollDelay req ++ [ESleep pollDelay])%list
                                 req)
                 (fun i => fetch env (tr ++ ESleep pollDelay :: EFetch req
                                         :: rounds i pollDelay req ++ [ESleep pollDelay])%list
                                 req));
        [reflexivity | intros i; rewrite <- app_assoc; reflexivity].
    + intros i Hi. pose proof (Hnr (S i) ltac:(lia)) as H.
      cbn [rounds] in H. rewrite <- !app_assoc. cbn [app]. exact H.
Qed.
End PollSnapshots.

(** X8.  When no status answer within the 12 attempts shows the sandbox
    ready, the bearer-credential server spends all 12 rounds, whatever the
    answers are: it waits 60000 ms, sends 12 status requests, and only then
    answers, from the last snapshot it stored: the body of the last 2xx
    answer that parsed, and [{}] when there was none. *)
Theorem never_ready_spends_every_round :
  forall env content config name image port createResponse createData,
    readFile env [] (configPath env) = Returned content ->
    JSON_parse env content = Returned config ->
    truthy (opt_field "proxyUrl" config) = true ->
    truthy (opt_field "apiKey" config) = true ->
    let start := [EReadFile (configPath env);
                  EFetch (PolledCreate.createRequest env config name image port)] in
    let req := PolledCreate.statusRequest config name in
    let answers :=
      map (fun i => fetch env (start ++ rounds i 5000 req ++ [ESleep 5000])%list req)
          (seq 0 12) in
    fetch env [EReadFile (configPath env)]
          (PolledCreate.createRequest env config name image port)
    = Returned createResponse ->
    ok createResponse = true ->
    json createResponse = Returned createData ->
    (forall i, (i < 12)%nat ->
               not_ready (fetch env (start ++ rounds i 5000 req ++ [ESleep 5000])%list req)) ->
    let sandboxData := last_snapshot answers in
    run (ApiKeyProxy.create_sandbox name image port) env noPollVars
    = (Returned (fst (PolledCreate.answer name sandboxData)),
       (start ++ rounds 12 5000 req ++ snd (PolledCreate.answer name sandboxData))%list)
    /\ (nullish sandboxData = false -> truthy (field "ready" sandboxData) = false)
    /\ slept (snd (run (ApiKeyProxy.create_sandbox name image port) env noPollVars))
       = 60000%Z
    /\ List.length
         (requests (snd (run (ApiKeyProxy.create_sandbox name image port) env noPollVars)))
       = 13%nat.
Proof.
  intros env content config name image port createResponse createData
         Hfile Hparse Hp Hkey start req answers Hacc Hok Hbody Hnr sandboxData.
  pose proof (truthy_opt_field _ _ Hp) as Hn.
  destruct (ApiKeyProxy_create_accepted env content config name image port
              createResponse createData Hfile Hparse Hp Hkey Hacc Hok Hbody)
    as (k & vars & Hpoll & _ & _ & Hexhausted & Hrun).
  fold start in Hpoll, Hrun. fold req in Hpoll, Hrun.
  pose proof (poll_not_ready_snapshot env config (PolledCreate.statusUrl config name) Hn 12
                0 (ApiKeyProxy.mkPollVars (VObj []) false) start Hnr) as Hloop.
  change ApiKeyProxy.maxAttempts with 12%nat in Hpoll, Hexhausted.
  change (12 + 0)%nat with 12%nat in Hloop. rewrite Hloop in Hpoll.
  cbn [ApiKeyProxy.poll] in Hpoll. unfold ret in Hpoll.
  injection Hpoll as Hvars _. cbn [ApiKeyProxy.sandboxData ApiKeyProxy.ready] in Hvars.
  assert (Hsd : ApiKeyProxy.sandboxData vars = sandboxData).
  { rewrite <- Hvars. reflexivity. }
  assert (Hr : ApiKeyProxy.ready vars = false).
  { rewrite <- Hvars. reflexivity. }
  destruct (Hexhausted Hr) as [-> Hpending].
  unfold Poll.snapshot_pending in Hpending. rewrite Hsd in Hrun, Hpending.
  split; [exact Hrun |]. split; [exact Hpending |].
  rewrite Hrun. cbn [snd].
  destruct (answer_is_quiet name sandboxData) as [Hd Hq].
  split.
  - unfold start. cbn [app slept]. rewrite !slept_app, (slept_no_delays _ Hd).
    change (ESleep 5000 :: EFetch req :: rounds 11 5000 req) with (rounds 12 5000 req).
    cbn [rounds slept]. reflexivity.
  - unfold start. cbn [app requests rounds List.length].
    rewrite Hq. reflexivity.
Qed.

Lemma never_ready_spends_every_round_witness :
  run (ApiKeyProxy.create_sandbox "s1" None None) pending_runtime noPollVars
  = (Returned (created "s1" (VStr "pending")
                       (VObj [("name", VStr "s1"); ("ready", VBool false)])),
     ([EReadFile Double.path;
       EFetch (PolledCreate.createRequest pending_runtime Double.proxyConfig "s1" None None)]
        ++ rounds 12 5000 (PolledCreate.statusRequest Double.proxyConfig "s1"))%list).
Proof.
  destruct (never_ready_spends_every_round pending_runtime "config" Double.proxyConfig
              "s1" None None
              (mkResponse 201 (Returned (VObj [("name", VStr "s1")])))
              (VObj [("name", VStr "s1")])
              eq_refl eq_refl eq_refl eq_refl eq_refl eq_refl eq_refl) as (H & _).
  - intros i Hi.
    do 12 (destruct i as [| i]; [intros _ data Hd _; injection Hd as <-; reflexivity |]). lia.
  - exact H.
Defined.

(** ** The status request of src/remote-sandbox.ts *)

(** X9.  In src/remote-sandbox.ts the one status request of
    [create_sandbox] is not guarded: when it throws, the call fails with
    that error although the creation was accepted, and the settings push is
    not attempted.  A status answer that is not 2xx, on the other hand, is
    not an error at all: the body is not read, the push is attempted and
    the call succeeds with the requested name, the configured namespace,
    ['pending'] and [false]. *)
Theorem timed_create_status_outcomes :
  forall env content config name image port createResponse createData,
    readFile env [] (configPath env) = Returned content ->
    JSON_parse env content = Returned config ->
    truthy (opt_field "proxyUrl" config) = true ->
    let waited := [EReadFile (configPath env);
                   EFetch (TimedCreate.createRequest env config name image port);
                   ESleep 30000] in
    let statusRequest := TimedCreate.statusRequest config name in
    fetch env [EReadFile (configPath env)]
          (TimedCreate.createRequest env config name image port)
    = Returned createResponse ->
    ok createResponse = true ->
    json createResponse = Returned createData ->
    (forall e,
        fetch env waited statusRequest = Thrown e ->
        run (RemoteSandbox.create_sandbox name image port) env tt
        = (Returned (failure e), (waited ++ [EFetch statusRequest])%list))
    /\ (forall statusResponse,
           fetch env waited statusRequest = Returned statusResponse ->
           ok statusResponse = false ->
           run (RemoteSandbox.create_sandbox name image port) env tt
           = (Returned (VObj [("success", VBool true);
                              ("message", VStr ("Sandbox '" ++ name ++ "' created successfully"));
                              ("sandbox", VObj [("name", VStr name);
                                                ("namespace", TimedCreate.namespace config);
                                                ("serviceFQDN", VStr "pending");
                                                ("ready", VBool false)])]),
              (waited ++ [EFetch statusRequest;
                          EFetch (TimedCreate.pushRequest env config name port)])%list)).
Proof.
  intros env content config name image port createResponse createData
         Hfile Hparse Hp waited statusRequest Hacc Hok Hbody.
  pose proof (RemoteSandbox_create_accepted env content config name image port
                createResponse createData Hfile Hparse Hp Hacc Hok Hbody) as Hrun.
  cbv zeta in Hrun. cbn [app rounds] in Hrun. unfold TimedCreate.waitDelay in Hrun.
  fold waited in Hrun. fold statusRequest in Hrun.
  split.
  - intros e He. rewrite Hrun, He. reflexivity.
  - intros statusResponse Hs Hnok. rewrite Hrun, Hs.
    unfold TimedCreate.finish. rewrite Hnok. reflexivity.
Qed.

Lemma timed_create_status_outcomes_witness :
  run (RemoteSandbox.create_sandbox "s1" None None) refusing_runtime tt
  = (Returned (failure (Error "connect ECONNREFUSED")),
     [EReadFile Double.path;
      EFetch (TimedCreate.createRequest refusing_runtime Double.proxyConfig "s1" None None);
      ESleep 30000;
      EFetch (TimedCreate.statusRequest Double.proxyConfig "s1")]).
Proof.
  exact (proj1 (timed_create_status_outcomes refusing_runtime "config" Double.proxyConfig
                  "s1" None None
                  (mkResponse 201 (Returned (VObj [("name", VStr "s1")])))
                  (VObj [("name", VStr "s1")])
                  eq_refl eq_refl eq_refl eq_refl eq_refl eq_refl)
               (Error "connect ECONNREFUSED") eq_refl).
Defined.

(** ** An unreadable configuration *)

(** X10.  In the two proxy servers a configuration file that cannot be read
    or parsed fails every tool before any request: a read error whose code
    is [ENOENT] is replaced by [Config file not found at <path>. ...],
    naming the path, and any other error is reported with its own
    message. *)
Theorem unreadable_config_fails_every_tool :
  forall env e call,
    (readFile env [] (configPath env) = Thrown e
     \/ exists content, readFile env [] (configPath env) = Returned content
                        /\ JSON_parse env content = Thrown e) ->
    let reported :=
      if code_is e "ENOENT"
      then Error ("Config file not found at " ++ configPath env
                  ++ ". Please create it with at least a 'proxyUrl' field.")
      else e in
    run (RemoteSandbox_tool call) env tt
    = (Returned (failure reported), [EReadFile (configPath env)])
    /\ exists label,
        run (ApiKeyProxy_tool call) env noPollVars
        = (Returned (failure reported),
           [EReadFile (configPath env); EConsoleError label reported]).
Proof.
  intros env e call Hcfg reported.
  assert (H1 : @RemoteSandbox.loadConfig unit env tt []
               = (Thrown reported, tt, [EReadFile (configPath env)])).
  { unfold RemoteSandbox.loadConfig, reported. run_goal.
    destruct Hcfg as [-> | (content & -> & ->)];
      destruct (code_is e "ENOENT"); reflexivity. }
  assert (H2 : @ApiKeyProxy.loadConfig ApiKeyProxy.PollVars env noPollVars []
               = (Thrown reported, noPollVars, [EReadFile (configPath env)])).
  { unfold ApiKeyProxy.loadConfig, reported. run_goal.
    destruct Hcfg as [-> | (content & -> & ->)];
      destruct (code_is e "ENOENT"); reflexivity. }
  split.
  - destruct (RemoteSandbox_tool_starts_with_loadConfig call) as (k & ->).
    unfold run. rewrite (try_bind_thrown _ _ _ _ _ _ _ _ _ H1). reflexivity.
  - destruct (ApiKeyProxy_tool_starts_with_loadConfig call) as (k & label & ->).
    exists label. unfold run. rewrite (try_bind_thrown _ _ _ _ _ _ _ _ _ H2). reflexivity.
Qed.

Lemma unreadable_config_fails_every_tool_witness :
  run (RemoteSandbox_tool ListSandboxes) shell_runtime tt
  = (Returned (failure (Error ("Config file not found at " ++ Double.path
                               ++ ". Please create it with at least a 'proxyUrl' field."))),
     [EReadFile Double.path]).
Proof.
  exact (proj1 (unreadable_config_fails_every_tool shell_runtime
                  (mkError "no such file" (Some "ENOENT")) ListSandboxes
                  (or_introl eq_refl))).
Defined.


(** ** Error bodies that are not JSON *)



(** X12.  The bearer-credential server sends [Authorization: Bearer <apiKey>]
    with every request it makes, the status requests of the poll included;
    src/remote-sandbox.ts sends no header but [Content-Type], and so never
    a credential. *)
Theorem credential_goes_with_every_request :
  forall env content config call req,
    readFile env [] (configPath env) = Returned content ->
    JSON_parse env content = Returned config ->
    truthy (opt_field "proxyUrl" config) = true ->
    (truthy (opt_field "apiKey" config) = true ->
     In req (requests (snd (run (ApiKeyProxy_tool call) env noPollVars))) ->
     In ("Authorization", "Bearer " ++ to_string (field "apiKey" config)) (headers req))
    /\ (In req (requests (snd (run (RemoteSandbox_tool call) env tt))) ->
        forall h, In h (headers req) -> h = ("Content-Type", "application/json")).
Proof.
  intros env content config call req Hfile Hparse Hp. split.
  - intros Hk Hin.
    destruct (Address.bearer env config call) as [r |] eqn:Ha.
    + rewrite (ApiKeyProxy_single_request env content config Hfile Hparse Hp Hk call r Ha)
        in Hin.
      destruct Hin as [<- | []].
      exact (Address_bearer_headers env config call r Ha).
    + destruct call; try discriminate Ha. cbn [ApiKeyProxy_tool] in Hin.
      destruct (ApiKeyProxy_create_trace env content config Hfile Hparse Hp Hk
                  name image port) as (k & tail & Htr & Hq).
      rewrite Htr in Hin. cbn [app requests] in Hin. rewrite !requests_app, Hq in Hin.
      rewrite app_nil_r in Hin. destruct Hin as [<- | Hin].
      * unfold PolledCreate.createRequest, PolledCreate.bearer. cbn [headers In]. tauto.
      * rewrite (requests_rounds _ _ _ _ Hin).
        unfold PolledCreate.statusRequest, Poll.statusRequest, GET. cbn [headers In]. tauto.
  - intros Hin h Hh.
    destruct (Address.remote env config call) as [r |] eqn:Ha.
    + rewrite (RemoteSandbox_single_request env content config Hfile Hparse Hp call r Ha)
        in Hin.
      destruct Hin as [<- | []].
      exact (Address_remote_headers env config call r h Ha Hh).
    + destruct call; try discriminate Ha. cbn [RemoteSandbox_tool] in Hin.
      destruct (RemoteSandbox_create_requests env content config Hfile Hparse Hp
                  name image port req Hin) as [-> | [-> | ->]];
        unfold TimedCreate.createRequest, TimedCreate.statusRequest,
          TimedCreate.pushRequest, GET in Hh;
        cbn [headers In] in Hh; intuition (subst; auto).
Qed.

Lemma credential_goes_with_every_request_witness :
  In ("Authorization", "Bearer sk_live_1")
     (headers (PolledCreate.statusRequest Double.proxyConfig "s1")).
Proof.
  exact (proj1 (credential_goes_with_every_request slow_runtime "config" Double.proxyConfig
                  (CreateSandbox "s1" None None)
                  (PolledCreate.statusRequest Double.proxyConfig "s1")
                  eq_refl eq_refl eq_refl)
               eq_refl (or_intror (or_introl eq_refl))).
Defined.


(** ** The cluster CLI server *)

Lemma Kubectl_loadConfig_loaded {L} env (l : L) :
  Kubectl.loadConfig env l []
  = (Returned (Cluster.loaded env), l, [EReadFile (configPath env)]).
Proof.
  unfold Kubectl.loadConfig, Cluster.loaded. run_goal.
  destruct (readFile env [] (configPath env)) as [content | e]; [| reflexivity].
  destruct (JSON_parse env content); reflexivity.
Qed.

Lemma kubectl_outcome {L} env args config (l : L) tr :
  Kubectl.kubectl args config env l tr
  = (match execAsync env tr (Kubectl.kubectl_cmd args config) with
     | Returned stdout => Returned (String_trim env stdout)
     | Thrown e => Thrown (Cluster.kubectl_failed e (Kubectl.kubectl_cmd args config))
     end, l, (tr ++ [EExec (Kubectl.kubectl_cmd args config)])%list).
Proof.
  unfold Kubectl.kubectl, Cluster.kubectl_failed. run_goal.
  destruct (execAsync env tr (Kubectl.kubectl_cmd args config)); reflexivity.
Qed.

(** X13.  [delete_sandbox] of the cluster CLI server runs exactly one
    command, whatever the runtime: it answers success whenever the command
    exits normally, without looking at what it printed, and otherwise fails
    with [kubectl command failed: <message>] followed by the command line on
    a line of its own. *)
Theorem delete_reports_the_command_outcome :
  forall env name,
    let config := Cluster.loaded env in
    let cmd := Kubectl.kubectl_cmd ["delete"; "sandbox"; name] config in
    run (Kubectl.delete_sandbox name) env tt
    = (Returned
         match execAsync env [EReadFile (configPath env)] cmd with
         | Returned _ =>
             VObj [("success", VBool true);
                   ("message", VStr ("Sandbox '" ++ name ++ "' deleted successfully"))]
         | Thrown e =>
             failure (Error ("kubectl command failed: " ++ message e ++ nl
                             ++ "Command: " ++ cmd))
         end,
       [EReadFile (configPath env); EExec cmd]).
Proof.
  intros env name config cmd. unfold run, Kubectl.delete_sandbox.
  rewrite (try_bind_returned _ _ _ _ _ _ _ _ _ (Kubectl_loadConfig_loaded env tt)).
  unfold try_catch at 1, bind at 1. rewrite kubectl_outcome. fold config. fold cmd.
  unfold ret. cbn [app].
  destruct (execAsync env [EReadFile (configPath env)] cmd); reflexivity.
Qed.

Lemma summary_spec {L} env sb (l : L) tr :
  Kubectl.summary sb env l tr = (Cluster.summarised sb, l, tr).
Proof.
  unfold Kubectl.summary, Cluster.summarised, get. run_goal.
  destruct (nullish sb); [reflexivity |]. cbn beta iota.
  destruct (nullish (field "metadata" sb)); [reflexivity |]. cbn beta iota.
  rewrite ready_condition_spec.
  destruct (found_condition _ sb); reflexivity.
Qed.

Lemma map_summary_spec {L} env items (l : L) tr :
  Kubectl.map_summary items env l tr = (Cluster.summarised_all items, l, tr).
Proof.
  induction items as [| sb rest IH]; [reflexivity |].
  cbn [Kubectl.map_summary Cluster.summarised_all]. unfold bind at 1.
  rewrite summary_spec. destruct (Cluster.summarised sb); [| reflexivity].
  unfold bind at 1. rewrite IH.
  destruct (Cluster.summarised_all rest); reflexivity.
Qed.

Lemma summarised_all_each items :
  forall ss, Cluster.summarised_all items = Returned ss ->
             Forall2 (fun sb s => Cluster.summarised sb = Returned s) items ss.
Proof.
  induction items as [| sb rest IH]; intros ss H; cbn [Cluster.summarised_all] in H.
  - injection H as <-. constructor.
  - destruct (Cluster.summarised sb) as [s | e] eqn:Hs; [| discriminate H].
    destruct (Cluster.summarised_all rest) as [ss' | e]; [| discriminate H].
    injection H as <-. constructor; auto.
Qed.

Lemma summarised_all_thrown items sb e :
  In sb items -> Cluster.summarised sb = Thrown e ->
  exists e', Cluster.summarised_all items = Thrown e'.
Proof.
  induction items as [| x rest IH]; intros Hin Hs; [destruct Hin |].
  cbn [Cluster.summarised_all]. destruct Hin as [-> | Hin].
  - rewrite Hs. eexists; reflexivity.
  - destruct (Cluster.summarised x); [| eexists; reflexivity].
    destruct (IH Hin Hs) as (e' & ->). eexists; reflexivity.
Qed.

Lemma summarised_all_returned items :
  (forall sb, In sb items -> exists s, Cluster.summarised sb = Returned s) ->
  exists ss, Cluster.summarised_all items = Returned ss.
Proof.
  induction items as [| x rest IH]; intros Hall; cbn [Cluster.summarised_all];
    [eexists; reflexivity |].
  destruct (Hall x (or_introl eq_refl)) as (s & ->).
  destruct (IH (fun sb Hin => Hall sb (or_intror Hin))) as (ss & ->).
  eexists; reflexivity.
Qed.

Lemma Kubectl_list_trace env :
  snd (run (@Kubectl.list_sandboxes unit) env tt)
  = [EReadFile (configPath env);
     EExec (Kubectl.kubectl_cmd ["get"; "sandboxes"; "-o"; "json"] (Cluster.loaded env))].
Proof.
  unfold run, Kubectl.list_sandboxes.
  rewrite (try_bind_returned _ _ _ _ _ _ _ _ _ (Kubectl_loadConfig_loaded env tt)).
  unfold try_catch at 1, bind at 1. rewrite kubectl_outcome. cbn [app].
  destruct (execAsync env _ _) as [stdout | e]; [| reflexivity].
  unfold get. run_goal.
  destruct (JSON_parse env (String_trim env stdout)) as [v | e]; [| reflexivity].
  destruct (nullish v); [reflexivity |]. cbn beta iota.
  destruct (field "items" v); try reflexivity.
  rewrite map_summary_spec. destruct (Cluster.summarised_all xs); reflexivity.
Qed.

(** X14.  [list_sandboxes] of the cluster CLI server summarises the items
    of the printed list one by one and in order, and [count] is the number
    of items; an item that cannot be summarised (one without [metadata],
    say) fails the whole listing. *)
Theorem listing_summarises_every_item :
  forall env stdout sandboxList items,
    let config := Cluster.loaded env in
    let cmd := Kubectl.kubectl_cmd ["get"; "sandboxes"; "-o"; "json"] config in
    execAsync env [EReadFile (configPath env)] cmd = Returned stdout ->
    JSON_parse env (String_trim env stdout) = Returned sandboxList ->
    field "items" sandboxList = VArr items ->
    (forall sb e,
        In sb items -> Cluster.summarised sb = Thrown e ->
        exists e', fst (run (@Kubectl.list_sandboxes unit) env tt) = Returned (failure e'))
    /\ ((forall sb, In sb items -> exists s, Cluster.summarised sb = Returned s) ->
        exists sandboxes,
          fst (run (@Kubectl.list_sandboxes unit) env tt)
          = Returned (VObj [("count", VNum (Z.of_nat (List.length items)));
                            ("sandboxes", VArr sandboxes)])
          /\ Forall2 (fun sb s => Cluster.summarised sb = Returned s) items sandboxes).
Proof.
  intros env stdout sandboxList items config cmd Hexec Hparse Hitems.
  assert (Hn : nullish sandboxList = false).
  { destruct sandboxList; try reflexivity; discriminate Hitems. }
  assert (Hrun : fst (run (@Kubectl.list_sandboxes unit) env tt)
                 = Returned match Cluster.summarised_all items with
                            | Returned ss =>
                                VObj [("count", VNum (Z.of_nat (List.length ss)));
                                      ("sandboxes", VArr ss)]
                            | Thrown e => failure e
                            end).
  { unfold run, Kubectl.list_sandboxes.
    rewrite (try_bind_returned _ _ _ _ _ _ _ _ _ (Kubectl_loadConfig_loaded env tt)).
    unfold try_catch at 1, bind at 1. rewrite kubectl_outcome. cbn [app].
    fold config. fold cmd. rewrite Hexec.
    unfold get. run_goal. rewrite Hparse, Hn. cbn beta iota. rewrite Hitems.
    rewrite map_summary_spec. destruct (Cluster.summarised_all items); reflexivity. }
  split.
  - intros sb e Hin Hs. destruct (summarised_all_thrown items sb e Hin Hs) as (e' & He).
    exists e'. rewrite Hrun, He. reflexivity.
  - intros Hall.
    destruct (Cluster.summarised_all items) as [ss | e] eqn:Hss.
    + pose proof (summarised_all_each items ss Hss) as Heach.
      exists ss. split; [| exact Heach].
      rewrite Hrun. rewrite (Forall2_length Heach). reflexivity.
    + destruct (summarised_all_returned items Hall) as (ss & Hret). congruence.
Qed.

Lemma listing_summarises_every_item_witness :
  exists sandboxes,
    fst (run (@Kubectl.list_sandboxes unit) listing_runtime tt)
    = Returned (VObj [("count", VNum 2); ("sandboxes", VArr sandboxes)]).
Proof.
  destruct (listing_summarises_every_item listing_runtime "list"
              (VObj [("items",
                      VArr [VObj [("metadata", VObj [("name", VStr "a");
                                                     ("namespace", VStr "default")]);
                                  ("status",
                                   VObj [("conditions",
                                          VArr [VObj [("type", VStr "Ready");
                                                      ("status", VStr "True")]])])];
                            VObj [("metadata", VObj [("name", VStr "b");
                                                     ("namespace", VStr "default")])]])])
              _ eq_refl eq_refl eq_refl) as [_ H].
  destruct H as (sandboxes & Hrun & _).
  - intros sb [<- | [<- | []]]; eexists; reflexivity.
  - exists sandboxes. exact Hrun.
Defined.

(** X15.  The cluster CLI server never fails on its configuration file:
    when the file cannot be read or parsed, [loadConfig] answers the
    built-in defaults.  The commands then run in the namespace [default]
    without a kubeconfig flag, and [send_prompt_to_sandbox], the one tool
    that needs the proxy, fails before any request. *)
Theorem unreadable_config_means_defaults :
  forall env,
    ((exists e, readFile env [] (configPath env) = Thrown e)
     \/ exists content e, readFile env [] (configPath env) = Returned content
                          /\ JSON_parse env content = Thrown e) ->
    @Kubectl.loadConfig unit env tt []
    = (Returned (VObj [("username", VStr "default"); ("namespace", VStr "default");
                       ("defaultImage", VStr "sandbox-runtime:latest");
                       ("defaultPort", VNum 8888)]),
       tt, [EReadFile (configPath env)])
    /\ (forall name,
           commands (snd (run (Kubectl.delete_sandbox name) env tt))
           = ["kubectl  -n default delete sandbox " ++ name])
    /\ commands (snd (run (@Kubectl.list_sandboxes unit) env tt))
       = ["kubectl  -n default get sandboxes -o json"]
    /\ (forall name command,
           run (Kubectl.send_prompt_to_sandbox name command) env tt
           = (Returned (failure (Error "proxyUrl not configured. Please set proxyUrl in config.json")),
              [EReadFile (configPath env)])).
Proof.
  intros env Hcfg.
  assert (Hd : Cluster.loaded env = Kubectl.defaultConfig).
  { unfold Cluster.loaded.
    destruct Hcfg as [(e & ->) | (content & e & -> & ->)]; reflexivity. }
  pose proof (Kubectl_loadConfig_loaded env tt) as Hl. rewrite Hd in Hl.
  split; [exact Hl |]. split; [| split].
  - intros name. unfold run, Kubectl.delete_sandbox.
    rewrite (try_bind_returned _ _ _ _ _ _ _ _ _ Hl).
    unfold try_catch at 1, bind at 1. rewrite kubectl_outcome. cbn [app].
    destruct (execAsync env _ _); reflexivity.
  - rewrite Kubectl_list_trace, Hd. reflexivity.
  - intros name command. unfold run, Kubectl.send_prompt_to_sandbox.
    rewrite (try_bind_returned _ _ _ _ _ _ _ _ _ Hl). reflexivity.
Qed.

Lemma unreadable_config_means_defaults_witness :
  commands (snd (run (@Kubectl.list_sandboxes unit) listing_runtime tt))
  = ["kubectl  -n default get sandboxes -o json"].
Proof.
  exact (proj1 (proj2 (proj2 (unreadable_config_means_defaults listing_runtime
                                (or_introl (ex_intro _ _ eq_refl)))))).
Defined.

(** X16.  [create_sandbox] of the cluster CLI server removes its temporary
    manifest only after a successful [kubectl apply]: when the command
    fails, the call fails with the command's error and the manifest written
    to [/tmp/sandbox-<name>-<timestamp>.yaml] stays behind, no unlink being
    performed; when the write itself fails, no command is run. *)
Theorem failed_apply_leaves_the_manifest :
  forall env name image port,
    let config := Cluster.loaded env in
    let tmpFile := Cluster.tmpFile env name in
    let yaml := Cluster.manifest config name image port in
    let cmd := Kubectl.kubectl_cmd ["apply"; "-f"; tmpFile] config in
    nullish config = false ->
    (forall e,
        writeFile env [EReadFile (configPath env); ENow] tmpFile yaml = Thrown e ->
        run (Kubectl.create_sandbox name image port) env tt
        = (Returned (failure e),
           [EReadFile (configPath env); ENow; EWriteFile tmpFile yaml]))
    /\ (forall e,
           writeFile env [EReadFile (configPath env); ENow] tmpFile yaml = Returned tt ->
           execAsync env [EReadFile (configPath env); ENow; EWriteFile tmpFile yaml] cmd
           = Thrown e ->
           run (Kubectl.create_sandbox name image port) env tt
           = (Returned (failure (Cluster.kubectl_failed e cmd)),
              [EReadFile (configPath env); ENow; EWriteFile tmpFile yaml; EExec cmd])).
Proof.
  intros env name image port config tmpFile yaml cmd Hn.
  split.
  - intros e Hw. unfold run, Kubectl.create_sandbox.
    rewrite (try_bind_returned _ _ _ _ _ _ _ _ _ (Kubectl_loadConfig_loaded env tt)).
    fold config. revert Hw.
    unfold yaml, tmpFile, Cluster.manifest, Cluster.tmpFile, Cluster.image, Cluster.username,
      sandboxPort, get.
    fold config. run_goal. rewrite Hn.
    destruct (truthy (opt_str image)); destruct (truthy (opt_num port));
      intros Hw; cbn beta iota; rewrite ?Hn; cbn beta iota; cbn [app];
      rewrite Hw; reflexivity.
  - intros e Hw Hx. unfold run, Kubectl.create_sandbox.
    rewrite (try_bind_returned _ _ _ _ _ _ _ _ _ (Kubectl_loadConfig_loaded env tt)).
    fold config. revert Hw Hx.
    unfold cmd, yaml, tmpFile, Cluster.manifest, Cluster.tmpFile, Cluster.image,
      Cluster.username, Cluster.kubectl_failed, sandboxPort, Kubectl.kubectl, get.
    fold config. run_goal. rewrite Hn.
    destruct (truthy (opt_str image)); destruct (truthy (opt_num port));
      intros Hw Hx; cbn beta iota; rewrite ?Hn; cbn beta iota; cbn [app];
      rewrite Hw; cbn [app]; rewrite Hx; reflexivity.
Qed.

Lemma failed_apply_leaves_the_manifest_witness :
  run (Kubectl.create_sandbox "s1" None None) ghost_runtime tt
  = (Returned (failure (Cluster.kubectl_failed
                          (Error "spawn kubectl ENOENT")
                          "kubectl   apply -f /tmp/sandbox-s1-1700000000000.yaml")),
     [EReadFile Double.path; ENow;
      EWriteFile "/tmp/sandbox-s1-1700000000000.yaml"
        (Kubectl.generateSandboxYAML "s1" "sandbox-runtime:latest" "8888" "default");
      EExec "kubectl   apply -f /tmp/sandbox-s1-1700000000000.yaml"]).
Proof.
  exact (proj2 (failed_apply_leaves_the_manifest ghost_runtime "s1" None None eq_refl)
               (Error "spawn kubectl ENOENT") eq_refl eq_refl).
Defined.

(** X17.  In [get_sandbox_status] of the cluster CLI server the pod lookup
    is best effort and is not undone when it fails half way: a failing pod
    command, or an empty pod list, leaves [podName] and [podStatus] at
    ['unknown']; a first pod that has a name and no [status] yet leaves
    [podName] set to that name and [podStatus] at ['unknown']; and in every
    case the rest of the answer is built from the sandbox document alone. *)
Theorem pod_lookup_is_best_effort :
  forall env name stdout sandbox,
    let config := Cluster.loaded env in
    let get_sandbox := Kubectl.kubectl_cmd ["get"; "sandbox"; name; "-o"; "json"] config in
    let get_pods :=
      Kubectl.kubectl_cmd ["get"; "pods"; "-l";
                           to_string (Cluster.podSelector sandbox name); "-o"; "json"]
                          config in
    let answers (podName podStatus : value) :=
      run (Kubectl.get_sandbox_status name) env noPodVars
      = (Returned (caught (Cluster.status_payload sandbox podName podStatus)),
         [EReadFile (configPath env); EExec get_sandbox; EExec get_pods]) in
    execAsync env [EReadFile (configPath env)] get_sandbox = Returned stdout ->
    JSON_parse env (String_trim env stdout) = Returned sandbox ->
    nullish sandbox = false ->
    (forall e,
        execAsync env [EReadFile (configPath env); EExec get_sandbox] get_pods = Thrown e ->
        answers (VStr "unknown") (VStr "unknown"))
    /\ (forall podOutput pods,
           execAsync env [EReadFile (configPath env); EExec get_sandbox] get_pods
           = Returned podOutput ->
           JSON_parse env (String_trim env podOutput) = Returned pods ->
           (field "items" pods = VArr [] -> answers (VStr "unknown") (VStr "unknown"))
           /\ (forall pod rest,
                  field "items" pods = VArr (pod :: rest) ->
                  nullish pod = false ->
                  nullish (field "metadata" pod) = false ->
                  (nullish (field "status" pod) = true ->
                   answers (field "name" (field "metadata" pod)) (VStr "unknown"))
                  /\ (nullish (field "status" pod) = false ->
                      answers (field "name" (field "metadata" pod))
                              (field "phase" (field "status" pod))))).
Proof.
  intros env name stdout sandbox config get_sandbox get_pods answers Hexec Hparse Hn.
  assert (Hlen : forall (pod : value) rest,
             (0 <? Z.of_nat (List.length (pod :: rest)))%Z = true).
  { intros pod rest. apply Z.ltb_lt. cbn [List.length]. lia. }
  unfold answers, run, Kubectl.get_sandbox_status.
  rewrite (try_bind_returned _ _ _ _ _ _ _ _ _ (Kubectl_loadConfig_loaded env noPodVars)).
  fold config. revert Hexec.
  unfold get_sandbox, get_pods, Cluster.podSelector, Cluster.status_payload,
    Kubectl.kubectl, Kubectl.positive, get.
  run_goal. intros Hexec. rewrite Hexec, Hparse, Hn. cbn beta iota. cbn [app].
  split.
  - intros e He. rewrite He. cbn beta iota. rewrite ready_condition_spec.
    destruct (found_condition _ sandbox); [| reflexivity].
    destruct (nullish (field "metadata" sandbox)); reflexivity.
  - intros podOutput pods He Hpods. rewrite He, Hpods. cbn beta iota. cbn [app]. split.
    + intros Hitems.
      assert (Hnp : nullish pods = false).
      { destruct pods; try reflexivity; discriminate Hitems. }
      rewrite Hnp. cbn beta iota. rewrite Hitems.
      cbn [truthy nullish field String.eqb Ascii.eqb Bool.eqb List.length Z.of_nat Z.ltb
           Z.compare].
      cbn beta iota. rewrite ready_condition_spec.
      destruct (found_condition _ sandbox); [| reflexivity].
      destruct (nullish (field "metadata" sandbox)); reflexivity.
    + intros pod rest Hitems Hpod Hmd.
      assert (Hnp : nullish pods = false).
      { destruct pods; try reflexivity; discriminate Hitems. }
      rewrite Hnp. cbn beta iota. rewrite Hitems.
      cbn [truthy nullish field String.eqb Ascii.eqb Bool.eqb Kubectl.first_item].
      rewrite Hlen. cbn beta iota. rewrite Hpod. cbn beta iota. rewrite Hmd. cbn beta iota.
      split; intros Hst; rewrite Hst; cbn beta iota;
        cbn [Kubectl.podName Kubectl.podStatus];
        rewrite ready_condition_spec;
        (destruct (found_condition _ sandbox); [| reflexivity]);
        destruct (nullish (field "metadata" sandbox)); reflexivity.
Qed.

Lemma pod_lookup_is_best_effort_witness :
  run (Kubectl.get_sandbox_status "s1") pod_runtime noPodVars
  = (Returned
       (caught (Cluster.status_payload
                  (VObj [("metadata", VObj [("name", VStr "s1");
                                            ("namespace", VStr "default")])])
                  (VStr "s1-pod") (VStr "unknown"))),
     [EReadFile Double.path;
      EExec "kubectl  -n default get sandbox s1 -o json";
      EExec "kubectl  -n default get pods -l sandbox=s1 -o json"]).
Proof.
  destruct (pod_lookup_is_best_effort pod_runtime "s1" "sandbox"
              (VObj [("metadata", VObj [("name", VStr "s1"); ("namespace", VStr "default")])])
              eq_refl eq_refl eq_refl) as [_ H].
  destruct (H "pods"
              (VObj [("items", VArr [VObj [("metadata", VObj [("name", VStr "s1-pod")])]])])
              eq_refl eq_refl) as [_ Hpod].
  exact (proj1 (Hpod (VObj [("metadata", VObj [("name", VStr "s1-pod")])]) []
                     eq_refl eq_refl eq_refl) eq_refl).
Defined.

(** X18.  The readiness of a sandbox document is decided by the first
    condition whose [type] is ['Ready']: the conditions after it are not
    inspected, so neither a later [Ready] condition nor a malformed entry
    after it changes the answer. *)
Theorem first_ready_condition_decides :
  forall env expr owner before c after,
    nullish owner = false ->
    opt_field "conditions" (field "status" owner) = VArr (before ++ c :: after)%list ->
    Forall (fun x => nullish x = false /\ strict_eq_str (field "type" x) "Ready" = false)
           before ->
    nullish c = false ->
    strict_eq_str (field "type" c) "Ready" = true ->
    @Kubectl.ready_condition unit expr owner env tt [] = (Returned c, tt, []).
Proof.
  intros env expr owner before c after Ho Hcs Hb Hc Hr.
  rewrite ready_condition_spec. unfold found_condition. rewrite Ho, Hcs. cbn [nullish].
  f_equal. f_equal. clear - Hb Hc Hr.
  induction Hb as [| x before [Hx Ht] _ IH]; cbn [app found_Ready].
  - rewrite Hc, Hr. reflexivity.
  - rewrite Hx, Ht. exact IH.
Qed.

Lemma first_ready_condition_decides_witness :
  @Kubectl.ready_condition unit "find"
     (VObj [("status",
             VObj [("conditions",
                    VArr [VObj [("type", VStr "Scheduled"); ("status", VStr "True")];
                          VObj [("type", VStr "Ready"); ("status", VStr "False")];
                          VNull;
                          VObj [("type", VStr "Ready"); ("status", VStr "True")]])])])
     empty_runtime tt []
  = (Returned (VObj [("type", VStr "Ready"); ("status", VStr "False")]), tt, []).
Proof.
  apply (first_ready_condition_decides empty_runtime "find")
    with (before := [VObj [("type", VStr "Scheduled"); ("status", VStr "True")]])
         (after := [VNull; VObj [("type", VStr "Ready"); ("status", VStr "True")]]).
  - reflexivity.
  - reflexivity.
  - constructor; [split; reflexivity | constructor].
  - reflexivity.
  - reflexivity.
Defined.


(** X19.  [create_sandbox] of the cluster CLI server waits once: after a
    successful apply and removal of the manifest it sleeps 30000 ms, runs
    one [kubectl get], and then performs nothing but, at most, the settings
    push; without a configured [proxyUrl] it sends no request at all. *)
Theorem cluster_create_waits_once :
  forall env name image port stdout,
    let config := Cluster.loaded env in
    let tmpFile := Cluster.tmpFile env name in
    let yaml := Cluster.manifest config name image port in
    let apply := Kubectl.kubectl_cmd ["apply"; "-f"; tmpFile] config in
    let get_sandbox := Kubectl.kubectl_cmd ["get"; "sandbox"; name; "-o"; "json"] config in
    let applied := [EReadFile (configPath env); ENow; EWriteFile tmpFile yaml; EExec apply] in
    nullish config = false ->
    writeFile env [EReadFile (configPath env); ENow] tmpFile yaml = Returned tt ->
    execAsync env [EReadFile (configPath env); ENow; EWriteFile tmpFile yaml] apply
    = Returned stdout ->
    unlink env applied tmpFile = Returned tt ->
    exists tail,
      snd (run (Kubectl.create_sandbox name image port) env tt)
      = (applied ++ [EUnlink tmpFile; ESleep 30000; EExec get_sandbox] ++ tail)%list
      /\ (tail = [] \/ tail = [EFetch (TimedCreate.pushRequest env config name port)])
      /\ (missing "proxyUrl" config -> tail = [])
      /\ slept (snd (run (Kubectl.create_sandbox name image port) env tt)) = 30000%Z.
Proof.
  intros env name image port stdout config tmpFile yaml apply get_sandbox applied
         Hn Hw Hx Hu.
  assert (Hm : missing "proxyUrl" config -> truthy (field "proxyUrl" config) = false).
  { unfold missing, opt_field. rewrite Hn. auto. }
  unfold run, Kubectl.create_sandbox.
  rewrite (try_bind_returned _ _ _ _ _ _ _ _ _ (Kubectl_loadConfig_loaded env tt)).
  fold config. revert Hw Hx Hu.
  unfold applied, get_sandbox, apply, yaml, tmpFile, Cluster.manifest, Cluster.tmpFile,
    Cluster.image, Cluster.username, TimedCreate.pushRequest, TimedCreate.username,
    sandboxPort, Kubectl.kubectl, get.
  fold config. run_goal. rewrite Hn.
  destruct (truthy (opt_str image)); destruct (truthy (opt_num port));
    intros Hw Hx Hu; cbn beta iota; rewrite ?Hn; cbn beta iota; cbn [app];
    rewrite Hw; cbn [app]; rewrite Hx; cbn [app]; rewrite Hu; cbn [app];
    split_answers_using ltac:(rewrite ?ready_condition_spec);
    eexists; (split; [reflexivity |]);
    (split; [first [left; reflexivity | right; reflexivity] |]);
    (split; [| reflexivity]);
    first [reflexivity | intros Hmiss; apply Hm in Hmiss; congruence].
Qed.

Lemma cluster_create_waits_once_witness :
  exists tail,
    snd (run (Kubectl.create_sandbox "s1" None None) cluster_runtime tt)
    = ([EReadFile Double.path; ENow;
        EWriteFile "/tmp/sandbox-s1-1700000000000.yaml"
          (Kubectl.generateSandboxYAML "s1" "sandbox-runtime:latest" "8888" "default");
        EExec "kubectl   apply -f /tmp/sandbox-s1-1700000000000.yaml"]
         ++ [EUnlink "/tmp/sandbox-s1-1700000000000.yaml"; ESleep 30000;
             EExec "kubectl   get sandbox s1 -o json"] ++ tail)%list.
Proof.
  destruct (cluster_create_waits_once cluster_runtime "s1" None None "sandbox"
              eq_refl eq_refl eq_refl eq_refl) as (tail & H & _).
  exists tail. exact H.
Defined.
